(** * Short-Gen-AI: the [App] component of [src/App.tsx]

    A shallow embedding of the state, the handlers and the presentation
    state machine of the React component [App], together with the record
    types of [types.ts].

    Conventions of the embedding.
    - A JavaScript string is the list of its UTF-16 code units.
    - The hooks of the component ([useState]) form one record; a handler is
      a program in a state-and-exception monad over that record, the
      durable store and the files handed to the browser.
    - Everything imported from [./services/...] and [./utils/audioUtils],
      and the platform calls [Date.now], [Math.random], [JSON.stringify],
      [JSON.parse], are fields of a record of services; each call may
      throw, and within one handler run a service answers the same
      arguments the same way.
    - [number] is an exact rational where it may be fractional (a duration,
      a random draw) and an integer where the code only produces integers
      (the clock, an id); rounding, [NaN] and the infinities are outside
      the model.
    - The result of [JSON.parse] is read at the type the source casts it to,
      [Partial<SavedProject>]; a text that does not parse to an object of
      that shape counts as a parse that throws.
    - A handler runs from its invocation to its completion without another
      handler completing in between; the values a callback closes over are
      then the current ones, because every dependency list in the source
      names all the hooks its callback reads. *)

From Stdlib Require Import List ZArith QArith Qround Bool Lia.
From Stdlib Require Import Ascii String.
Import ListNotations.

Set Implicit Arguments.

(** ** JavaScript strings *)

Module Js.

Abbreviation JsString := (list N).

(** An ASCII literal as a JavaScript string. *)
Definition lit (s : string) : JsString :=
  map N_of_ascii (list_ascii_of_string s).

Definition eqb (a b : JsString) : bool :=
  if list_eq_dec N.eq_dec a b then true else false.

(** [!s] for a string: only the empty string is falsy. *)
Definition falsy (s : JsString) : bool :=
  match s with [] => true | _ :: _ => false end.

(** [s || d] for strings. *)
Definition or_else (s d : JsString) : JsString :=
  if falsy s then d else s.

(** [String.prototype.startsWith]. *)
Fixpoint startsWith (s pat : JsString) : bool :=
  match pat, s with
  | [], _ => true
  | _ :: _, [] => false
  | p :: pat', c :: s' => (N.eqb c p) && startsWith s' pat'
  end.

(** The code units that [String.prototype.trim] strips: ECMAScript
    WhiteSpace and LineTerminator. *)
Definition isWhiteSpace (c : N) : bool :=
  (N.eqb c 0x09) || (N.eqb c 0x0A) || (N.eqb c 0x0B) || (N.eqb c 0x0C)
  || (N.eqb c 0x0D) || (N.eqb c 0x20) || (N.eqb c 0xA0) || (N.eqb c 0x1680)
  || ((N.leb 0x2000 c) && (N.leb c 0x200A))
  || (N.eqb c 0x2028) || (N.eqb c 0x2029) || (N.eqb c 0x202F)
  || (N.eqb c 0x205F) || (N.eqb c 0x3000) || (N.eqb c 0xFEFF).

Fixpoint trimStart (s : JsString) : JsString :=
  match s with
  | [] => []
  | c :: s' => if isWhiteSpace c then trimStart s' else s
  end.

Definition trimEnd (s : JsString) : JsString := rev (trimStart (rev s)).

Definition trim (s : JsString) : JsString := trimEnd (trimStart s).

(** [String.prototype.split] with a separator of one code unit: the string
    is scanned from the left, [piece] holds the code units (last first)
    seen since the previous separator. *)
Fixpoint split_scan (sep : N) (piece : JsString) (s : JsString)
  : list JsString :=
  match s with
  | [] => [rev piece]
  | c :: s' =>
      if N.eqb c sep then rev piece :: split_scan sep [] s'
      else split_scan sep (c :: piece) s'
  end.

Definition split (sep : N) (s : JsString) : list JsString :=
  split_scan sep [] s.

(** [Array.prototype.join] on an array of strings. *)
Fixpoint join (sep : JsString) (xs : list JsString) : JsString :=
  match xs with
  | [] => []
  | [x] => x
  | x :: xs' => x ++ sep ++ join sep xs'
  end.

(** [String.prototype.slice(0, n)]. *)
Definition slice0 (n : nat) (s : JsString) : JsString := firstn n s.

(** [s.replace(/[^a-z0-9]/gi, '_')]: the class matches, ignoring case,
    exactly the ASCII letters and digits; every other code unit becomes an
    underscore. *)
Definition isAsciiAlnum (c : N) : bool :=
  ((N.leb 0x30 c) && (N.leb c 0x39))
  || ((N.leb 0x41 c) && (N.leb c 0x5A))
  || ((N.leb 0x61 c) && (N.leb c 0x7A)).

Definition replaceNonAlnum (s : JsString) : JsString :=
  map (fun c => if isAsciiAlnum c then c else 0x5F%N) s.

(** [String.prototype.toLowerCase] on the ASCII range, which is all that
    is left after [replaceNonAlnum]. *)
Definition toLowerCase (s : JsString) : JsString :=
  map (fun c => if (N.leb 0x41 c) && (N.leb c 0x5A) then (c + 0x20)%N else c) s.

End Js.

Import Js.

(** ** The voiceover text (App.tsx, lines 74-77) *)

(** The scene marker, a Tamil word followed by a colon:
    U+0B95 U+0BBE U+0B9F U+0BCD U+0B9A U+0BBF U+003A. *)
Definition sceneMarker : JsString :=
  [0x0B95; 0x0BBE; 0x0B9F; 0x0BCD; 0x0B9A; 0x0BBF; 0x3A]%N.

Definition LF : N := 0x0A%N.
Definition SPACE : JsString := [0x20%N].

Definition cleanedScriptForVoiceover (script : JsString) : JsString :=
  join SPACE
    (filter (fun line => negb (startsWith (trim line) sceneMarker))
            (split LF script)).

(** ** The record types of types.ts *)

Module Types.

(** [number] is modelled by its finite values, as exact rationals. *)
Record Scene := {
  sceneDescription : JsString;
  searchQuery : JsString;
  duration : Q;
  imageUrl : JsString
}.

Record SavedProject := {
  id : Z;
  topic : JsString;
  scenes : list Scene;
  audioData : JsString;
  title : JsString;
  hashtags : JsString
}.

End Types.

Abbreviation Scene := Types.Scene.
Abbreviation SavedProject := Types.SavedProject.

(** Modelled from the spec: the element type of the scene breakdown that
    [analyzeScriptForScenes] returns, whose declaration is in the missing
    [services/geminiService]: [{sceneDescription, searchQuery, duration}]. *)
Record SceneData := {
  sd_sceneDescription : JsString;
  sd_searchQuery : JsString;
  sd_duration : Q
}.

(** [Partial<SavedProject>], the type the source casts [JSON.parse]'s
    result to: every field is absent ([undefined]) or has its declared
    type. *)
Module Partial.

Record t := {
  id : option Z;
  topic : option JsString;
  scenes : option (list Scene);
  audioData : option JsString;
  title : option JsString;
  hashtags : option JsString
}.

(** [!x] for an optional string and for an optional array: [undefined] and
    the empty string are falsy, every array is truthy. *)
Definition falsy_string (x : option JsString) : bool :=
  match x with None => true | Some s => Js.falsy s end.

Definition falsy_array {A} (x : option (list A)) : bool :=
  match x with None => true | Some _ => false end.

(** [x || ''] for an optional string. *)
Definition or_empty (x : option JsString) : JsString :=
  match x with None => [] | Some s => Js.or_else s [] end.

(** The non-null assertion of a field the guard has found truthy. *)
Definition the {A} (d : A) (x : option A) : A :=
  match x with None => d | Some a => a end.

(** Every field of a full record, read as a partial one. *)
Definition of_project (p : SavedProject) : t :=
  {| id := Some (Types.id p);
     topic := Some (Types.topic p);
     scenes := Some (Types.scenes p);
     audioData := Some (Types.audioData p);
     title := Some (Types.title p);
     hashtags := Some (Types.hashtags p) |}.

End Partial.

(** ** Exceptions *)

(** A thrown value, read as the source reads it ([err as Error]): only its
    [message] is used. *)
Record JsError := { message : JsString }.

Inductive Outcome (A : Type) : Type :=
| Returned (a : A)
| Thrown (e : JsError).

Arguments Returned {A} a.
Arguments Thrown {A} e.

(** ** The state of the component *)

Inductive AppState := idle | loading | preview | error.

Definition AppState_eqb (a b : AppState) : bool :=
  match a, b with
  | idle, idle | loading, loading | preview, preview | error, error => true
  | _, _ => false
  end.

(** One field per [useState] hook (App.tsx, lines 13-22). *)
#[projections(primitive)] Record Hooks := {
  appState : AppState;
  loadingMessage : JsString;
  errorMessage : JsString;
  scenes : list Scene;
  audioUrl : JsString;
  currentTopic : JsString;
  title : JsString;
  hashtags : JsString;
  projects : list SavedProject;
  dbReady : bool
}.

Definition initialHooks : Hooks :=
  {| appState := idle; loadingMessage := []; errorMessage := [];
     scenes := []; audioUrl := []; currentTopic := []; title := [];
     hashtags := []; projects := []; dbReady := false |}.

(** What the input element of the import hands over: no file chosen, a read
    that fails ([reader.onerror]), or a completed read whose result is a
    string or not. *)
Inductive FileInput :=
| NoFile
| ReadFails
| ReadResult (text : option JsString).

Section Component.

(** The durable store and the decoded audio object are left abstract. *)
Variable DB : Type.
Variable AudioBuffer : Type.

(** The component state, the durable store, the files handed to the browser
    for download (name, contents) and the changes of presentation state in
    the order they were committed. *)
#[projections(primitive)] Record World := {
  ui : Hooks;
  db : DB;
  downloads : list (JsString * JsString);
  transitions : list (AppState * AppState)
}.

Definition mount (db0 : DB) : World :=
  {| ui := initialHooks; db := db0; downloads := []; transitions := [] |}.

(** The imported functions and the platform calls, as they answer during
    one handler run. A store call also yields the store it leaves behind.
    [Date_now] is the clock reading in milliseconds and [Math_random] the
    draw, which the platform takes from the interval from 0 (included) to 1
    (excluded). *)
Record Services := {
  generateScriptFromTopic : JsString -> Outcome JsString;
  generateTitleAndHashtags : JsString -> JsString -> Outcome (JsString * JsString);
  analyzeScriptForScenes : JsString -> Outcome (list SceneData);
  generateImageForScene : JsString -> Outcome JsString;
  generateVoiceover : JsString -> Outcome JsString;
  newAudioContext : Z -> Outcome unit;
  decode : JsString -> Outcome (list N);
  decodeAudioData : list N -> Z -> Z -> Outcome AudioBuffer;
  audioBufferToWaveBlobUrl : AudioBuffer -> Outcome JsString;
  blobUrlToBase64 : JsString -> Outcome JsString;
  base64ToBlobUrl : JsString -> Outcome JsString;
  initDB : DB -> DB * Outcome unit;
  getProjectsFromDB : DB -> DB * Outcome (list SavedProject);
  saveProjectToDB : SavedProject -> DB -> DB * Outcome unit;
  deleteProjectFromDB : Z -> DB -> DB * Outcome unit;
  Date_now : Z;
  Math_random : Q;
  JSON_stringify : SavedProject -> Outcome JsString;
  JSON_parse : JsString -> Outcome Partial.t
}.

(** *** The monad of handlers *)

Definition Prog (A : Type) : Type := World -> World * Outcome A.

Definition ret {A} (a : A) : Prog A := fun w => (w, Returned a).

Definition bind {A B} (c : Prog A) (k : A -> Prog B) : Prog B :=
  fun w =>
    match c w with
    | (w', Returned a) => k a w'
    | (w', Thrown e) => (w', Thrown e)
    end.

Definition throw {A} (e : JsError) : Prog A := fun w => (w, Thrown e).

(** [try { body } catch (err) { handler }]. *)
Definition try_catch {A} (body : Prog A) (handler : JsError -> Prog A)
  : Prog A :=
  fun w =>
    match body w with
    | (w', Returned a) => (w', Returned a)
    | (w', Thrown e) => handler e w'
    end.

(** [await] of a call that does not touch the store, and of one that does. *)
Definition await {A} (o : Outcome A) : Prog A := fun w => (w, o).

Definition awaitDB {A} (f : DB -> DB * Outcome A) : Prog A :=
  fun w =>
    let (d, o) := f (db w) in
    ({| ui := ui w; db := d; downloads := downloads w;
        transitions := transitions w |}, o).

Definition get : Prog Hooks := fun w => (w, Returned (ui w)).

(** The world a program leaves behind. *)
Definition exec {A} (c : Prog A) (w : World) : World := fst (c w).

Notation "x <- c ;; k" := (bind c (fun x => k))
  (at level 61, c at next level, right associativity).
Notation "c ;;; k" := (bind c (fun _ => k))
  (at level 61, right associativity).

(** *** The state setters *)

Definition modify (f : Hooks -> Hooks) : Prog unit :=
  fun w =>
    ({| ui := f (ui w); db := db w; downloads := downloads w;
        transitions := transitions w |}, Returned tt).

(** [setAppState] also records the change of presentation state, when there
    is one. *)
Definition setAppState (a : AppState) : Prog unit :=
  fun w =>
    let h := ui w in
    ({| ui := {| appState := a; loadingMessage := loadingMessage h;
                 errorMessage := errorMessage h; scenes := scenes h;
                 audioUrl := audioUrl h; currentTopic := currentTopic h;
                 title := title h; hashtags := hashtags h;
                 projects := projects h; dbReady := dbReady h |};
        db := db w; downloads := downloads w;
        transitions :=
          if AppState_eqb (appState h) a then transitions w
          else transitions w ++ [(appState h, a)] |}, Returned tt).

Definition setLoadingMessage (m : JsString) : Prog unit :=
  modify (fun h =>
    {| appState := appState h; loadingMessage := m;
       errorMessage := errorMessage h; scenes := scenes h;
       audioUrl := audioUrl h; currentTopic := currentTopic h;
       title := title h; hashtags := hashtags h;
       projects := projects h; dbReady := dbReady h |}).

Definition setErrorMessage (m : JsString) : Prog unit :=
  modify (fun h =>
    {| appState := appState h; loadingMessage := loadingMessage h;
       errorMessage := m; scenes := scenes h;
       audioUrl := audioUrl h; currentTopic := currentTopic h;
       title := title h; hashtags := hashtags h;
       projects := projects h; dbReady := dbReady h |}).

Definition setScenes (s : list Scene) : Prog unit :=
  modify (fun h =>
    {| appState := appState h; loadingMessage := loadingMessage h;
       errorMessage := errorMessage h; scenes := s;
       audioUrl := audioUrl h; currentTopic := currentTopic h;
       title := title h; hashtags := hashtags h;
       projects := projects h; dbReady := dbReady h |}).

Definition setAudioUrl (u : JsString) : Prog unit :=
  modify (fun h =>
    {| appState := appState h; loadingMessage := loadingMessage h;
       errorMessage := errorMessage h; scenes := scenes h;
       audioUrl := u; currentTopic := currentTopic h;
       title := title h; hashtags := hashtags h;
       projects := projects h; dbReady := dbReady h |}).

Definition setCurrentTopic (t : JsString) : Prog unit :=
  modify (fun h =>
    {| appState := appState h; loadingMessage := loadingMessage h;
       errorMessage := errorMessage h; scenes := scenes h;
       audioUrl := audioUrl h; currentTopic := t;
       title := title h; hashtags := hashtags h;
       projects := projects h; dbReady := dbReady h |}).

Definition setTitle (t : JsString) : Prog unit :=
  modify (fun h =>
    {| appState := appState h; loadingMessage := loadingMessage h;
       errorMessage := errorMessage h; scenes := scenes h;
       audioUrl := audioUrl h; currentTopic := currentTopic h;
       title := t; hashtags := hashtags h;
       projects := projects h; dbReady := dbReady h |}).

Definition setHashtags (t : JsString) : Prog unit :=
  modify (fun h =>
    {| appState := appState h; loadingMessage := loadingMessage h;
       errorMessage := errorMessage h; scenes := scenes h;
       audioUrl := audioUrl h; currentTopic := currentTopic h;
       title := title h; hashtags := t;
       projects := projects h; dbReady := dbReady h |}).

(** [setProjects], with a value or with an updater ([prev => ...]). *)
Definition updateProjects (f : list SavedProject -> list SavedProject)
  : Prog unit :=
  modify (fun h =>
    {| appState := appState h; loadingMessage := loadingMessage h;
       errorMessage := errorMessage h; scenes := scenes h;
       audioUrl := audioUrl h; currentTopic := currentTopic h;
       title := title h; hashtags := hashtags h;
       projects := f (projects h); dbReady := dbReady h |}).

Definition setProjects (ps : list SavedProject) : Prog unit :=
  updateProjects (fun _ => ps).

Definition setDbReady (b : bool) : Prog unit :=
  modify (fun h =>
    {| appState := appState h; loadingMessage := loadingMessage h;
       errorMessage := errorMessage h; scenes := scenes h;
       audioUrl := audioUrl h; currentTopic := currentTopic h;
       title := title h; hashtags := hashtags h;
       projects := projects h; dbReady := b |}).

(** The browser is handed a file to save (App.tsx, lines 162-171). *)
Definition download (name contents : JsString) : Prog unit :=
  fun w =>
    ({| ui := ui w; db := db w;
        downloads := downloads w ++ [(name, contents)];
        transitions := transitions w |}, Returned tt).

(** *** Array helpers *)

(** [Array.prototype.map] with the callback's index argument. *)
Fixpoint map_index {A B} (f : A -> nat -> B) (index : nat) (l : list A)
  : list B :=
  match l with
  | [] => []
  | a :: l' => f a index :: map_index f (S index) l'
  end.

(** [Promise.all]: the array of results, or the first rejection (the
    promises are taken to settle in array order). *)
Fixpoint Promise_all {A} (ps : list (Outcome A)) : Outcome (list A) :=
  match ps with
  | [] => Returned []
  | Thrown e :: _ => Thrown e
  | Returned a :: ps' =>
      match Promise_all ps' with
      | Returned l => Returned (a :: l)
      | Thrown e => Thrown e
      end
  end.

(** [{...scene, imageUrl: generatedImageUrls[index]}]. *)
Definition withImage (generatedImageUrls : list JsString)
    (scene : SceneData) (index : nat) : Scene :=
  {| Types.sceneDescription := sd_sceneDescription scene;
     Types.searchQuery := sd_searchQuery scene;
     Types.duration := sd_duration scene;
     Types.imageUrl := nth index generatedImageUrls [] |}.

(** [Date.now() + Math.floor(Math.random() * 1000)]. *)
Definition freshId (svc : Services) : Z :=
  (Date_now svc + Qfloor (Math_random svc * inject_Z 1000))%Z.

(** *** The mount effect (App.tsx, lines 24-41) *)

Definition initialize (svc : Services) : Prog unit :=
  try_catch
    (awaitDB (initDB svc) ;;;
     setDbReady true ;;;
     savedProjects <- awaitDB (getProjectsFromDB svc) ;;
     setProjects savedProjects)
    (fun e =>
       setErrorMessage
         (lit "Could not load saved projects. Please refresh the page.") ;;;
       setAppState error).

(** *** handleGenerateVideo (App.tsx, lines 43-95) *)

Definition generation (svc : Services) (topic : JsString) : Prog unit :=
  setLoadingMessage (lit "Generating script from your topic...") ;;;
  script <- await (generateScriptFromTopic svc topic) ;;
  setLoadingMessage (lit "Creating title & hashtags...") ;;;
  th <- await (generateTitleAndHashtags svc topic script) ;;
  setTitle (fst th) ;;;
  setHashtags (snd th) ;;;
  setLoadingMessage (lit "Analyzing your script...") ;;;
  sceneData <- await (analyzeScriptForScenes svc script) ;;
  setLoadingMessage (lit "Generating visuals for your scenes...") ;;;
  generatedImageUrls <-
    await (Promise_all
             (map (fun scene => generateImageForScene svc (sd_sceneDescription scene))
                  sceneData)) ;;
  setScenes (map_index (withImage generatedImageUrls) 0 sceneData) ;;;
  setLoadingMessage (lit "Generating Tamil voiceover...") ;;;
  audioData <- await (generateVoiceover svc (cleanedScriptForVoiceover script)) ;;
  setLoadingMessage (lit "Preparing your video...") ;;;
  await (newAudioContext svc 24000) ;;;
  decodedBytes <- await (decode svc audioData) ;;
  audioBuffer <- await (decodeAudioData svc decodedBytes 24000 1) ;;
  url <- await (audioBufferToWaveBlobUrl svc audioBuffer) ;;
  setAudioUrl url ;;;
  setAppState preview.

Definition handleGenerateVideo (svc : Services) (topic : JsString)
  : Prog unit :=
  setAppState loading ;;;
  setCurrentTopic topic ;;;
  setTitle [] ;;;
  setHashtags [] ;;;
  try_catch (generation svc topic)
    (fun error_ =>
       setErrorMessage
         (or_else (message error_) (lit "An unknown error occurred.")) ;;;
       setAppState error).

(** *** handleRestart (App.tsx, lines 97-105) *)

Definition handleRestart : Prog unit :=
  setAppState idle ;;;
  setScenes [] ;;;
  setAudioUrl [] ;;;
  setErrorMessage [] ;;;
  setCurrentTopic [] ;;;
  setTitle [] ;;;
  setHashtags [].

(** *** handleSaveProject (App.tsx, lines 107-128) *)

Definition saveGuard (h : Hooks) : bool :=
  Nat.eqb (List.length (scenes h)) 0 || falsy (audioUrl h)
  || falsy (currentTopic h) || negb (dbReady h).

Definition handleSaveProject (svc : Services) : Prog unit :=
  h <- get ;;
  if saveGuard h then ret tt
  else
    try_catch
      (audioData <- await (blobUrlToBase64 svc (audioUrl h)) ;;
       let newProject :=
         {| Types.id := freshId svc;
            Types.topic := currentTopic h;
            Types.scenes := scenes h;
            Types.audioData := audioData;
            Types.title := title h;
            Types.hashtags := hashtags h |} in
       awaitDB (saveProjectToDB svc newProject) ;;;
       let updatedProjects := projects h ++ [newProject] in
       setProjects updatedProjects)
      (fun _ =>
         setErrorMessage (lit "Could not save the project. Please try again.") ;;;
         setAppState error).

(** *** handleLoadProject (App.tsx, lines 130-144) *)

Definition handleLoadProject (svc : Services) (project : SavedProject)
  : Prog unit :=
  try_catch
    (loadedAudioUrl <- await (base64ToBlobUrl svc (Types.audioData project)) ;;
     setScenes (Types.scenes project) ;;;
     setAudioUrl loadedAudioUrl ;;;
     setCurrentTopic (Types.topic project) ;;;
     setTitle (or_else (Types.title project) []) ;;;
     setHashtags (or_else (Types.hashtags project) []) ;;;
     setAppState preview)
    (fun _ =>
       setErrorMessage
         (lit "Could not load project. The data might be corrupted.") ;;;
       setAppState error).

(** *** handleDeleteProject (App.tsx, lines 146-157) *)

Definition handleDeleteProject (svc : Services) (id : Z) : Prog unit :=
  h <- get ;;
  if negb (dbReady h) then ret tt
  else
    try_catch
      (awaitDB (deleteProjectFromDB svc id) ;;;
       let updatedProjects :=
         filter (fun p => negb (Z.eqb (Types.id p) id)) (projects h) in
       setProjects updatedProjects)
      (fun _ =>
         setErrorMessage
           (lit "Could not delete the project. Please try again.") ;;;
         setAppState error).

(** *** handleExportProject (App.tsx, lines 159-177) *)

Definition exportFileName (project : SavedProject) : JsString :=
  let safeTopic := toLowerCase (replaceNonAlnum (Types.topic project)) in
  lit "aishort-project-" ++ slice0 20 safeTopic ++ lit ".json".

Definition handleExportProject (svc : Services) (project : SavedProject)
  : Prog unit :=
  try_catch
    (projectJson <- await (JSON_stringify svc project) ;;
     download (exportFileName project) projectJson)
    (fun _ =>
       setErrorMessage
         (lit "Could not export the project. An unexpected error occurred.") ;;;
       setAppState error).

(** *** handleImportProject (App.tsx, lines 179-223) *)

Definition importGuard (importedProject : Partial.t) : bool :=
  Partial.falsy_string (Partial.topic importedProject)
  || Partial.falsy_array (Partial.scenes importedProject)
  || Partial.falsy_string (Partial.audioData importedProject).

Definition importedRecord (svc : Services) (importedProject : Partial.t)
  : SavedProject :=
  {| Types.id := freshId svc;
     Types.topic := Partial.the [] (Partial.topic importedProject);
     Types.scenes := Partial.the [] (Partial.scenes importedProject);
     Types.audioData := Partial.the [] (Partial.audioData importedProject);
     Types.title := Partial.or_empty (Partial.title importedProject);
     Types.hashtags := Partial.or_empty (Partial.hashtags importedProject) |}.

(** The body of [reader.onload]; its [finally] block only clears the input
    element. *)
Definition onload (svc : Services) (text : option JsString) : Prog unit :=
  try_catch
    (text' <- match text with
              | Some s => ret s
              | None => throw {| message := lit "File could not be read." |}
              end ;;
     importedProject <- await (JSON_parse svc text') ;;
     (if importGuard importedProject
      then throw {| message :=
             lit "Invalid project file. It's missing topic, scenes, or audio data." |}
      else ret tt) ;;;
     let newProject := importedRecord svc importedProject in
     awaitDB (saveProjectToDB svc newProject) ;;;
     updateProjects (fun prev => prev ++ [newProject]))
    (fun error_ =>
       setErrorMessage (lit "Could not import project: " ++ message error_) ;;;
       setAppState error).

Definition handleImportProject (svc : Services) (file : FileInput)
  : Prog unit :=
  match file with
  | NoFile => ret tt
  | ReadFails =>
      setErrorMessage (lit "Failed to read the project file.") ;;;
      setAppState error
  | ReadResult text => onload svc text
  end.

(** *** The presentation shell (App.tsx, lines 226-262) *)

Inductive Event :=
| Generate (topic : JsString)
| LoadProject (project : SavedProject)
| DeleteProject (id : Z)
| ExportProject (project : SavedProject)
| ImportProject (file : FileInput)
| SaveProject
| Restart.


Definition handle (svc : Services) (ev : Event) : Prog unit :=
  match ev with
  | Generate topic => handleGenerateVideo svc topic
  | LoadProject project => handleLoadProject svc project
  | DeleteProject id => handleDeleteProject svc id
  | ExportProject project => handleExportProject svc project
  | ImportProject file => handleImportProject svc file
  | SaveProject => handleSaveProject svc
  | Restart => handleRestart
  end.


End Component.

(** ** The voiceover text, as the specification words it *)

Module VoiceoverSpec.

Definition allWhite (s : JsString) : Prop :=
  Forall (fun c => isWhiteSpace c = true) s.

Definition bareAtStart (s : JsString) : Prop :=
  match s with [] => True | c :: _ => isWhiteSpace c = false end.

(** [t] is the trimmed content of [line]: what is left of [line] once the
    white space at both ends is gone. *)
Definition trimmedContent (line t : JsString) : Prop :=
  exists a b,
    line = a ++ t ++ b /\ allWhite a /\ allWhite b
    /\ bareAtStart t /\ bareAtStart (rev t).

(** A line whose trimmed content begins with the scene marker. *)
Definition MarkerLine (line : JsString) : Prop :=
  exists t rest, trimmedContent line t /\ t = sceneMarker ++ rest.

(** [ls] are the lines of [script]: pieces free of line feeds which, put
    back together with one line feed between neighbours, give the script. *)
Definition Lines (script : JsString) (ls : list JsString) : Prop :=
  ls <> [] /\ Forall (fun l => ~ In LF l) ls /\ join [LF] ls = script.

(** [kept] is [ls] with every marker line removed. *)
Inductive Kept : list JsString -> list JsString -> Prop :=
| Kept_nil : Kept [] []
| Kept_drop l ls kept : MarkerLine l -> Kept ls kept -> Kept (l :: ls) kept
| Kept_keep l ls kept :
    ~ MarkerLine l -> Kept ls kept -> Kept (l :: ls) (l :: kept).

(** The remaining lines with single spaces between neighbours. *)
Fixpoint spaced (ls : list JsString) : JsString :=
  match ls with
  | [] => []
  | l :: ls' =>
      l ++ match ls' with [] => [] | _ :: _ => 0x20%N :: spaced ls' end
  end.

Definition Voiceover (script out : JsString) : Prop :=
  exists ls kept, Lines script ls /\ Kept ls kept /\ out = spaced kept.

End VoiceoverSpec.

(** ** The edges of the presentation state machine *)


(** The edges the handlers take: the listed ones, loading a saved project
    (idle to preview), a failing save (preview to error) and the restart
    button of the preview (preview to idle). *)
Definition takenEdge (e : AppState * AppState) : bool :=
  match e with
  | (idle, loading) | (loading, preview) | (loading, error)
  | (idle, error) | (error, idle)
  | (idle, preview) | (preview, error) | (preview, idle) => true
  | _ => false
  end.


(** ** The stages of the generation workflow *)

Inductive Stage :=
| ScriptStage | TitleStage | SceneAnalysisStage | ImageStage
| VoiceoverStage | AudioContextStage | DecodeStage | DecodeAudioStage
| WaveStage.


(** The stages awaited before [setScenes] is reached. *)
Definition beforeScenes (s : Stage) : bool :=
  match s with
  | ScriptStage | TitleStage | SceneAnalysisStage | ImageStage => true
  | _ => false
  end.

Section Stages.

Variable DB : Type.
Variable AudioBuffer : Type.
Variable svc : Services DB AudioBuffer.
Variable topic : JsString.

(** The first stage that throws, in the order the workflow awaits them, and
    what it throws; [None] when every stage returns. *)
Definition firstFailure : option (Stage * JsError) :=
  match generateScriptFromTopic svc topic with
  | Thrown e => Some (ScriptStage, e)
  | Returned script =>
  match generateTitleAndHashtags svc topic script with
  | Thrown e => Some (TitleStage, e)
  | Returned _ =>
  match analyzeScriptForScenes svc script with
  | Thrown e => Some (SceneAnalysisStage, e)
  | Returned sceneData =>
  match Promise_all
          (map (fun scene => generateImageForScene svc (sd_sceneDescription scene))
               sceneData) with
  | Thrown e => Some (ImageStage, e)
  | Returned _ =>
  match generateVoiceover svc (cleanedScriptForVoiceover script) with
  | Thrown e => Some (VoiceoverStage, e)
  | Returned audioData =>
  match newAudioContext svc 24000 with
  | Thrown e => Some (AudioContextStage, e)
  | Returned _ =>
  match decode svc audioData with
  | Thrown e => Some (DecodeStage, e)
  | Returned decodedBytes =>
  match decodeAudioData svc decodedBytes 24000 1 with
  | Thrown e => Some (DecodeAudioStage, e)
  | Returned audioBuffer =>
  match audioBufferToWaveBlobUrl svc audioBuffer with
  | Thrown e => Some (WaveStage, e)
  | Returned _ => None
  end end end end end end end end end.


End Stages.

(** ** Frames *)

(** Every hook but [projects] has the same value in [h'] as in [h]. *)
Definition onlyProjectsChanged (h h' : Hooks) : Prop :=
  appState h' = appState h /\ loadingMessage h' = loadingMessage h
  /\ errorMessage h' = errorMessage h /\ scenes h' = scenes h
  /\ audioUrl h' = audioUrl h /\ currentTopic h' = currentTopic h
  /\ title h' = title h /\ hashtags h' = hashtags h
  /\ dbReady h' = dbReady h.

(** The record a save builds from the hooks (App.tsx, lines 112-119). *)
Definition savedRecord {DB AudioBuffer} (svc : Services DB AudioBuffer)
    (h : Hooks) (audioData : JsString) : SavedProject :=
  {| Types.id := freshId svc;
     Types.topic := currentTopic h;
     Types.scenes := scenes h;
     Types.audioData := audioData;
     Types.title := title h;
     Types.hashtags := hashtags h |}.

(** ** What the import guard looks at *)






(** ** Further vocabulary *)

(** The code units an export file name is made of, between its fixed prefix
    and suffix: lower-case ASCII letters, digits and the underscore. *)
Definition isFileNameUnit (c : N) : bool :=
  ((N.leb 0x30 c) && (N.leb c 0x39))
  || ((N.leb 0x61 c) && (N.leb c 0x7A))
  || (N.eqb c 0x5F).

(** The events whose handlers call the store's put or delete. *)
Definition writesStore (ev : Event) : bool :=
  match ev with
  | SaveProject | DeleteProject _ | ImportProject _ => true
  | _ => false
  end.

(** The events whose handlers replace the scenes, the audio reference, the
    topic, the title or the hashtags. *)
Definition changesView (ev : Event) : bool :=
  match ev with
  | Generate _ | LoadProject _ | Restart => true
  | _ => false
  end.

(** The hooks with another store readiness. *)
Definition withDbReady (b : bool) (h : Hooks) : Hooks :=
  {| appState := appState h; loadingMessage := loadingMessage h;
     errorMessage := errorMessage h; scenes := scenes h;
     audioUrl := audioUrl h; currentTopic := currentTopic h;
     title := title h; hashtags := hashtags h;
     projects := projects h; dbReady := b |}.

Definition worldWithDbReady {DB} (b : bool) (w : World DB) : World DB :=
  {| ui := withDbReady b (ui w); db := db w; downloads := downloads w;
     transitions := transitions w |}.

(** A file with another id field. *)
Definition withFileId (i : option Z) (file : Partial.t) : Partial.t :=
  {| Partial.id := i;
     Partial.topic := Partial.topic file;
     Partial.scenes := Partial.scenes file;
     Partial.audioData := Partial.audioData file;
     Partial.title := Partial.title file;
     Partial.hashtags := Partial.hashtags file |}.


(** Line feeds turned into spaces. *)
Definition spaceForLF (s : JsString) : JsString :=
  map (fun c => if N.eqb c LF then 0x20%N else c) s.

(** The scene a breakdown entry becomes once its image is there. *)
Definition sceneOf (sd : SceneData) (image : JsString) : Scene :=
  {| Types.sceneDescription := sd_sceneDescription sd;
     Types.searchQuery := sd_searchQuery sd;
     Types.duration := sd_duration sd;
     Types.imageUrl := image |}.

(** The world after the handlers of a sequence of events, each with the
    services it runs with, whether or not the view offers them. *)
Fixpoint runEvents {DB AudioBuffer}
    (evs : list (Services DB AudioBuffer * Event)) (w : World DB)
  : World DB :=
  match evs with
  | [] => w
  | (svc, ev) :: evs' => runEvents evs' (exec (handle svc ev) w)
  end.

(** ** A sample installation *)

Module Sample.

(** Modelled from the spec: the durable store of the missing
    [services/googleDriveService], one record collection keyed by [id];
    put replaces the record with the same id or adds one, delete removes by
    id and does nothing when the id is absent. *)
Definition Store := list SavedProject.

Fixpoint put (p : SavedProject) (s : Store) : Store :=
  match s with
  | [] => [p]
  | q :: s' =>
      if Z.eqb (Types.id q) (Types.id p) then p :: s' else q :: put p s'
  end.

Definition delete (id : Z) (s : Store) : Store :=
  filter (fun q => negb (Z.eqb (Types.id q) id)) s.

Definition quota : JsError := {| message := lit "QuotaExceededError" |}.

Definition script : JsString :=
  sceneMarker ++ lit " kitchen" ++ [LF]
  ++ lit "Hello world" ++ [LF]
  ++ lit "  " ++ sceneMarker ++ lit " table" ++ [LF]
  ++ lit "Dinner is ready".

Definition sceneData : list SceneData :=
  [ {| sd_sceneDescription := lit "A robot in a kitchen";
       sd_searchQuery := lit "robot kitchen"; sd_duration := 5 |};
    {| sd_sceneDescription := lit "A set table";
       sd_searchQuery := lit "dinner table"; sd_duration := 4 |} ].

Definition scene : Scene :=
  {| Types.sceneDescription := lit "A robot in a kitchen";
     Types.searchQuery := lit "robot kitchen";
     Types.duration := 5;
     Types.imageUrl := lit "data:image/png;base64,iVBOR" |}.

Definition project (topic : string) (scenes : list Scene) : SavedProject :=
  {| Types.id := 1700000000500;
     Types.topic := lit topic;
     Types.scenes := scenes;
     Types.audioData := lit "UklGRg==";
     Types.title := lit "Robot Chef";
     Types.hashtags := lit "#robot #cooking" |}.

(** The text [JSON.stringify(project topic [scene], null, 2)] writes. *)
Definition quoted (s : string) : JsString := [0x22%N] ++ lit s ++ [0x22%N].

Definition projectJson (topic : string) : JsString :=
  join [LF]
    [ lit "{";
      lit "  " ++ quoted "id" ++ lit ": 1700000000500,";
      lit "  " ++ quoted "topic" ++ lit ": " ++ quoted topic ++ lit ",";
      lit "  " ++ quoted "scenes" ++ lit ": [";
      lit "    {";
      lit "      " ++ quoted "sceneDescription" ++ lit ": "
        ++ quoted "A robot in a kitchen" ++ lit ",";
      lit "      " ++ quoted "searchQuery" ++ lit ": "
        ++ quoted "robot kitchen" ++ lit ",";
      lit "      " ++ quoted "duration" ++ lit ": 5,";
      lit "      " ++ quoted "imageUrl" ++ lit ": "
        ++ quoted "data:image/png;base64,iVBOR";
      lit "    }";
      lit "  ],";
      lit "  " ++ quoted "audioData" ++ lit ": " ++ quoted "UklGRg==" ++ lit ",";
      lit "  " ++ quoted "title" ++ lit ": " ++ quoted "Robot Chef" ++ lit ",";
      lit "  " ++ quoted "hashtags" ++ lit ": " ++ quoted "#robot #cooking";
      lit "}" ].



(** Services that answer as a browser with a working generation service
    would, with these settings: the clock, the random draw, whether store
    writes go through, what scene analysis answers, and the one file text
    the JSON codec knows together with what it parses to. *)
Definition services (now : Z) (random : Q) (storeUp : bool)
    (analysis : Outcome (list SceneData))
    (fileText : JsString) (file : Partial.t)
  : Services Store (list Z) :=
  {| generateScriptFromTopic := fun _ => Returned script;
     generateTitleAndHashtags := fun _ _ =>
       Returned (lit "Robot Chef", lit "#robot #cooking");
     analyzeScriptForScenes := fun _ => analysis;
     generateImageForScene := fun d =>
       Returned (lit "data:image/png;base64," ++ d);
     generateVoiceover := fun _ => Returned (lit "AAAAAA==");
     newAudioContext := fun _ => Returned tt;
     decode := fun _ => Returned [0; 0; 0; 0]%N;
     decodeAudioData := fun _ _ _ => Returned [0; 0]%Z;
     audioBufferToWaveBlobUrl := fun _ => Returned (lit "blob:null/wave");
     blobUrlToBase64 := fun _ => Returned (lit "UklGRg==");
     base64ToBlobUrl := fun _ => Returned (lit "blob:null/loaded");
     initDB := fun s => (s, Returned tt);
     getProjectsFromDB := fun s => (s, Returned s);
     saveProjectToDB := fun p s =>
       if storeUp then (put p s, Returned tt) else (s, Thrown quota);
     deleteProjectFromDB := fun id s =>
       if storeUp then (delete id s, Returned tt) else (s, Thrown quota);
     Date_now := now;
     Math_random := random;
     JSON_stringify := fun _ => Returned fileText;
     JSON_parse := fun text =>
       if Js.eqb text fileText then Returned file
       else Thrown {| message := lit "Unexpected token" |} |}.

Definition robotTopic : string := "A robot learns to cook".

(** Everything works; the codec knows the export of the robot project. *)
Definition online (now : Z) (random : Q) : Services Store (list Z) :=
  services now random true (Returned sceneData)
    (projectJson robotTopic) (Partial.of_project (project robotTopic [scene])).

(** Store writes fail. *)
Definition storeDown : Services Store (list Z) :=
  services 1700000000000 (1 # 2) false (Returned sceneData)
    (projectJson robotTopic) (Partial.of_project (project robotTopic [scene])).

(** Scene analysis is rate limited. *)
Definition rateLimited : Services Store (list Z) :=
  services 1700000000000 (1 # 2) true
    (Thrown {| message := lit "rate limited" |})
    (projectJson robotTopic) (Partial.of_project (project robotTopic [scene])).



(** A run from the mount: the effect, then the events in order, each with
    its services. *)
Fixpoint run (evs : list (Services Store (list Z) * Event))
    (w : World Store) : World Store :=
  match evs with
  | [] => w
  | (svc, ev) :: evs' => run evs' (exec (handle svc ev) w)
  end.

Definition mounted : World Store :=
  exec (initialize (online 1700000000000 (1 # 2))) (mount []).


Definition clock : Z := 1700000000000.
Definition robot : JsString := lit robotTopic.
Definition robotProject : SavedProject := project robotTopic [scene].

(** A generation that ends in the preview. *)
Definition previewed : World Store :=
  run [(online clock (1 # 2), Generate robot)] mounted.


(** A save while store writes fail. *)
Definition saveFailed : World Store :=
  run [(storeDown, SaveProject)] previewed.


(** The robot project, imported from its export. *)
Definition robotImported : World Store :=
  run [(online clock (1 # 2),
        ImportProject (ReadResult (Some (projectJson robotTopic))))] mounted.





(** A run that takes every edge of the presentation state machine. *)
Definition tourEvents : list (Services Store (list Z) * Event) :=
  [ (online clock (1 # 2), Generate robot);
    (storeDown, SaveProject);
    (storeDown, Restart);
    (rateLimited, Generate robot);
    (rateLimited, Restart);
    (online clock (1 # 2), LoadProject robotProject);
    (online clock (1 # 2), Restart);
    (online clock (1 # 2), ImportProject ReadFails) ].

Definition tour : World Store := run tourEvents mounted.

(** Like [online], but the image service refuses the set table. *)
Definition imageDown : Services Store (list Z) :=
  let svc := online clock (1 # 2) in
  {| generateScriptFromTopic := generateScriptFromTopic svc;
     generateTitleAndHashtags := generateTitleAndHashtags svc;
     analyzeScriptForScenes := analyzeScriptForScenes svc;
     generateImageForScene := fun d =>
       if Js.eqb d (lit "A set table")
       then Thrown {| message := lit "image quota exhausted" |}
       else Returned (lit "data:image/png;base64," ++ d);
     generateVoiceover := generateVoiceover svc;
     newAudioContext := newAudioContext svc;
     decode := decode svc;
     decodeAudioData := decodeAudioData svc;
     audioBufferToWaveBlobUrl := audioBufferToWaveBlobUrl svc;
     blobUrlToBase64 := blobUrlToBase64 svc;
     base64ToBlobUrl := base64ToBlobUrl svc;
     initDB := initDB svc;
     getProjectsFromDB := getProjectsFromDB svc;
     saveProjectToDB := saveProjectToDB svc;
     deleteProjectFromDB := deleteProjectFromDB svc;
     Date_now := Date_now svc;
     Math_random := Math_random svc;
     JSON_stringify := JSON_stringify svc;
     JSON_parse := JSON_parse svc |}.


(** The images the sample image service answers for the sample scenes. *)
Definition sampleImages : list JsString :=
  [ lit "data:image/png;base64,A robot in a kitchen";
    lit "data:image/png;base64,A set table" ].

(** A script of two lines, neither a marker line. *)
Definition plainScript : JsString := lit "Hello" ++ [LF] ++ lit "world".

(** A save, then the delete of the id it drew, then a load of what was
    saved. *)
Definition savedOnce : World Store :=
  exec (handleSaveProject (online clock (1 # 2))) previewed.

Definition savedRecordOnce : SavedProject :=
  savedRecord (online clock (1 # 2)) (ui previewed) (lit "UklGRg==").

End Sample.

(** * Properties *)

Unset Implicit Arguments.

(** ** Strings *)

Section StringFacts.

Lemma startsWith_iff (s pat : JsString) :
  startsWith s pat = true <-> exists rest, s = pat ++ rest.
Proof.
  revert s; induction pat as [|p pat IH]; intros s; simpl.
  - split; [intros _; now exists s | now destruct s].
  - destruct s as [|c s]; simpl.
    + split; [discriminate | intros [r H]; discriminate].
    + rewrite andb_true_iff, N.eqb_eq, IH. split.
      * intros [-> [r ->]]. now exists r.
      * intros [r H]. injection H as -> ->. split; [reflexivity | now exists r].
Qed.

Lemma trimStart_app_bare (a b : JsString) :
  VoiceoverSpec.bareAtStart b -> b <> [] ->
  trimStart (a ++ b) = trimStart a ++ b.
Proof.
  intros Hb Hne. induction a as [|c a IH]; simpl.
  - destruct b as [|c b]; [congruence|]. simpl in *. now rewrite Hb.
  - destruct (isWhiteSpace c); [exact IH | reflexivity].
Qed.

Lemma trimStart_white (a b : JsString) :
  VoiceoverSpec.allWhite a -> trimStart (a ++ b) = trimStart b.
Proof.
  induction 1 as [|c a Hc _ IH]; simpl; [reflexivity|]. now rewrite Hc.
Qed.

Lemma trimStart_bare (s : JsString) :
  VoiceoverSpec.bareAtStart s -> trimStart s = s.
Proof. destruct s as [|c s]; simpl; [reflexivity|]. now intros ->. Qed.

Lemma trimStart_split (s : JsString) :
  exists a, s = a ++ trimStart s /\ VoiceoverSpec.allWhite a
            /\ VoiceoverSpec.bareAtStart (trimStart s).
Proof.
  induction s as [|c s (a & E & Ha & Hb)]; simpl.
  - exists []. repeat split. constructor.
  - destruct (isWhiteSpace c) eqn:Hc.
    + exists (c :: a). simpl. rewrite <- E. repeat split; [|exact Hb].
      now constructor.
    + exists []. simpl. repeat split; [constructor | exact Hc].
Qed.

Lemma allWhite_rev (a : JsString) :
  VoiceoverSpec.allWhite a -> VoiceoverSpec.allWhite (rev a).
Proof. unfold VoiceoverSpec.allWhite. apply Forall_rev. Qed.

(** Trimming the end leaves a prefix that does not end in white space. *)
Lemma trimEnd_split (s : JsString) :
  exists b, s = trimEnd s ++ b /\ VoiceoverSpec.allWhite b
            /\ VoiceoverSpec.bareAtStart (rev (trimEnd s)).
Proof.
  unfold trimEnd. destruct (trimStart_split (rev s)) as (a & E & Ha & Hb).
  exists (rev a). rewrite rev_involutive. repeat split.
  - rewrite <- rev_app_distr, <- E. now rewrite rev_involutive.
  - now apply allWhite_rev.
  - exact Hb.
Qed.

Lemma trimEnd_app_bare (m r : JsString) :
  m <> [] -> VoiceoverSpec.bareAtStart (rev m) ->
  trimEnd (m ++ r) = m ++ trimEnd r.
Proof.
  intros Hne Hb. unfold trimEnd.
  rewrite rev_app_distr, trimStart_app_bare, rev_app_distr, rev_involutive;
    [reflexivity | exact Hb |].
  intros E. apply Hne. rewrite <- (rev_involutive m), E. reflexivity.
Qed.

Lemma trimEnd_keeps_start (s : JsString) :
  VoiceoverSpec.bareAtStart s -> VoiceoverSpec.bareAtStart (trimEnd s).
Proof.
  destruct s as [|c s]; [intros _; exact I|]. simpl. intros Hc.
  change (c :: s) with ([c] ++ s).
  rewrite trimEnd_app_bare; [exact Hc | discriminate | exact Hc].
Qed.

(** [trim] computes the trimmed content, and nothing else is one. *)
Lemma trim_trimmedContent (line : JsString) :
  VoiceoverSpec.trimmedContent line (trim line).
Proof.
  unfold trim. destruct (trimStart_split line) as (a & E & Ha & Hs).
  destruct (trimEnd_split (trimStart line)) as (b & E' & Hb & He).
  exists a, b. repeat split; try assumption.
  - now rewrite <- E', <- E.
  - now apply trimEnd_keeps_start.
Qed.

Lemma trimEnd_white (b : JsString) :
  VoiceoverSpec.allWhite b -> trimEnd b = [].
Proof.
  intros H. unfold trimEnd. apply allWhite_rev in H.
  rewrite <- (app_nil_r (rev b)), trimStart_white by exact H. reflexivity.
Qed.

Lemma trimmedContent_unique (line t : JsString) :
  VoiceoverSpec.trimmedContent line t -> t = trim line.
Proof.
  intros (a & b & -> & Ha & Hb & Hs & He). unfold trim.
  rewrite trimStart_white by exact Ha.
  destruct t as [|c t].
  - simpl. rewrite <- (app_nil_r b), trimStart_white by exact Hb.
    reflexivity.
  - rewrite trimStart_bare by exact Hs.
    rewrite trimEnd_app_bare, trimEnd_white, app_nil_r;
      [reflexivity | exact Hb | discriminate | exact He].
Qed.

(** The source's test decides [MarkerLine]. *)
Lemma markerLine_test (line : JsString) :
  startsWith (trim line) sceneMarker = true <-> VoiceoverSpec.MarkerLine line.
Proof.
  rewrite startsWith_iff. split.
  - intros [rest E]. exists (trim line), rest. split; [|exact E].
    apply trim_trimmedContent.
  - intros (t & rest & Ht & E). exists rest.
    now rewrite <- (trimmedContent_unique _ _ Ht).
Qed.

End StringFacts.

(** ** C6: the voiceover text *)

Section Voiceover.

Import VoiceoverSpec.

Lemma join_cons (sep l : JsString) (ls : list JsString) :
  join sep (l :: ls)
  = l ++ match ls with [] => [] | _ :: _ => sep ++ join sep ls end.
Proof. destruct ls; simpl; [now rewrite app_nil_r | reflexivity]. Qed.

(** Scanning a script that was put together from line-feed-free pieces
    gives the pieces back. *)
Lemma split_scan_join (ls : list JsString) :
  Forall (fun l => ~ In LF l) ls ->
  forall (l piece : JsString), ~ In LF l ->
    split_scan LF piece (join [LF] (l :: ls)) = (rev piece ++ l) :: ls.
Proof.
  induction 1 as [|l2 ls H2 Hls IH]; intros l;
    induction l as [|c l IHl]; intros piece Hl.
  - simpl. now rewrite app_nil_r.
  - rewrite join_cons, app_nil_r. cbn [split_scan].
    destruct (N.eqb_spec c LF) as [->|_]; [exfalso; apply Hl; now left|].
    rewrite join_cons, app_nil_r in IHl. rewrite IHl.
    + simpl. now rewrite <- app_assoc.
    + intros HIn. apply Hl. now right.
  - rewrite join_cons. cbn [app split_scan]. rewrite N.eqb_refl.
    rewrite (IH l2 [] H2). now rewrite app_nil_r.
  - rewrite join_cons. cbn [app split_scan].
    destruct (N.eqb_spec c LF) as [->|_]; [exfalso; apply Hl; now left|].
    rewrite join_cons in IHl. rewrite IHl.
    + simpl. now rewrite <- app_assoc.
    + intros HIn. apply Hl. now right.
Qed.

Lemma split_scan_lines (s piece : JsString) :
  exists l ls,
    split_scan LF piece s = (rev piece ++ l) :: ls
    /\ ~ In LF l /\ Forall (fun l => ~ In LF l) ls
    /\ join [LF] (l :: ls) = s.
Proof.
  revert piece; induction s as [|c s IH]; intros piece.
  - exists [], []. simpl. rewrite app_nil_r. auto.
  - cbn [split_scan]. destruct (N.eqb_spec c LF) as [->|Hc].
    + destruct (IH []) as (l & ls & E & Hl & Hls & J).
      exists [], (l :: ls). rewrite E, app_nil_r. repeat split.
      * intros [].
      * constructor; assumption.
      * rewrite join_cons, J. reflexivity.
    + destruct (IH (c :: piece)) as (l & ls & E & Hl & Hls & J).
      exists (c :: l), ls. rewrite E. split; [|split; [|split]].
      * simpl. now rewrite <- app_assoc.
      * intros [H|H]; [now apply Hc | now apply Hl].
      * exact Hls.
      * rewrite join_cons in J |- *. now rewrite <- app_comm_cons, J.
Qed.

(** [split] finds the lines of the script, and they are the only ones. *)
Lemma split_Lines (script : JsString) : Lines script (split LF script).
Proof.
  unfold split. destruct (split_scan_lines script []) as (l & ls & E & Hl & Hls & J).
  rewrite E. simpl. repeat split; [discriminate | now constructor | exact J].
Qed.

Lemma Lines_unique (script : JsString) (ls : list JsString) :
  Lines script ls -> ls = split LF script.
Proof.
  intros (Hne & Hall & <-). destruct ls as [|l ls]; [congruence|].
  inversion Hall; subst. unfold split.
  now rewrite split_scan_join.
Qed.

Lemma Kept_filter (ls kept : list JsString) :
  Kept ls kept
  <-> kept = filter (fun line => negb (startsWith (trim line) sceneMarker)) ls.
Proof.
  split.
  - induction 1 as [|l ls kept Hm _ IH|l ls kept Hm _ IH]; simpl.
    + reflexivity.
    + apply markerLine_test in Hm. now rewrite Hm.
    + destruct (startsWith (trim l) sceneMarker) eqn:E.
      * exfalso. apply Hm. now apply markerLine_test.
      * simpl. now rewrite IH.
  - intros ->. induction ls as [|l ls IH]; simpl; [constructor|].
    destruct (startsWith (trim l) sceneMarker) eqn:E; simpl.
    + apply Kept_drop; [now apply markerLine_test | exact IH].
    + apply Kept_keep; [|exact IH].
      intros Hm. apply markerLine_test in Hm. congruence.
Qed.

Lemma spaced_join (ls : list JsString) : spaced ls = join SPACE ls.
Proof.
  induction ls as [|l ls IH]; [reflexivity|].
  rewrite join_cons. cbn [spaced]. destruct ls; [reflexivity|].
  now rewrite IH.
Qed.

(** C6. For every script, the text handed to the voiceover stage is the
    one the specification describes, and the only one: the script is split
    into its lines, every line whose trimmed content begins with the scene
    marker is removed, and the remaining lines are joined with single
    spaces. *)
Theorem voiceover_text_refines (script out : JsString) :
  Voiceover script out <-> out = cleanedScriptForVoiceover script.
Proof.
  unfold cleanedScriptForVoiceover. split.
  - intros (ls & kept & HL & HK & ->).
    apply Lines_unique in HL. apply Kept_filter in HK. subst.
    apply spaced_join.
  - intros ->. exists (split LF script).
    eexists. split; [apply split_Lines|]. split.
    + apply Kept_filter. reflexivity.
    + symmetry. apply spaced_join.
Qed.

End Voiceover.

(** ** The project handlers *)

Ltac run_prog :=
  cbv beta iota zeta delta
    [exec try_catch bind ret get throw await awaitDB
     setProjects updateProjects setErrorMessage setAppState setScenes
     setAudioUrl setCurrentTopic setTitle setHashtags setLoadingMessage
     setDbReady download modify
     initialize handleGenerateVideo generation handleRestart
     handleSaveProject handleLoadProject handleDeleteProject
     handleExportProject handleImportProject onload handle
     AppState_eqb fst snd
     ui db downloads transitions appState loadingMessage errorMessage
     scenes audioUrl currentTopic title hashtags projects dbReady] in *.

(** Case analysis on the store call, or on the awaited call, the goal is
    stuck on. *)
Ltac case_store :=
  match goal with
  | |- context [saveProjectToDB ?s ?p ?d] =>
      destruct (saveProjectToDB s p d) as [? [[]|?]] eqn:?
  | |- context [deleteProjectFromDB ?s ?i ?d] =>
      destruct (deleteProjectFromDB s i d) as [? [[]|?]] eqn:?
  | |- context [getProjectsFromDB ?s ?d] =>
      destruct (getProjectsFromDB s d) as [? [?|?]] eqn:?
  | |- context [initDB ?s ?d] =>
      destruct (initDB s d) as [? [[]|?]] eqn:?
  end;
  cbv beta iota.

Ltac case_await :=
  match goal with
  | |- context [match ?o with Returned _ => _ | Thrown _ => _ end] =>
      lazymatch o with
      | context [match _ with Returned _ => _ | Thrown _ => _ end] => fail
      | context [let (_, _) := _ in _] => fail
      | _ => destruct o eqn:?
      end
  end;
  cbv beta iota.

Section Handlers.

Variable DB : Type.
Variable AudioBuffer : Type.
Implicit Types (svc : Services DB AudioBuffer) (w : World DB).

Lemma falsy_true_iff (s : JsString) : falsy s = true <-> s = [].
Proof. destruct s; simpl; split; congruence. Qed.

Lemma falsy_false_iff (s : JsString) : falsy s = false <-> s <> [].
Proof. destruct s; simpl; split; congruence. Qed.

Lemma or_else_empty (s : JsString) : or_else s [] = s.
Proof. now destruct s. Qed.

Lemma saveGuard_true_iff (h : Hooks) :
  saveGuard h = true
  <-> scenes h = [] \/ audioUrl h = [] \/ currentTopic h = []
      \/ dbReady h = false.
Proof.
  unfold saveGuard.
  rewrite !orb_true_iff, !falsy_true_iff, negb_true_iff, Nat.eqb_eq,
    length_zero_iff_nil.
  tauto.
Qed.

Lemma saveGuard_false_iff (h : Hooks) :
  saveGuard h = false
  <-> scenes h <> [] /\ audioUrl h <> [] /\ currentTopic h <> []
      /\ dbReady h = true.
Proof.
  unfold saveGuard.
  rewrite !orb_false_iff, !falsy_false_iff, negb_false_iff, Nat.eqb_neq,
    length_zero_iff_nil.
  tauto.
Qed.

(** C9. A save whose scene sequence is empty, whose audio handle is absent,
    whose topic is empty or whose store is not ready returns at once: the
    world after it (hooks, with the projects list and the error message,
    store, downloads, presentation history) is the world before it, and
    nothing is thrown. *)
Theorem save_without_preconditions_is_noop svc w :
  scenes (ui w) = [] \/ audioUrl (ui w) = [] \/ currentTopic (ui w) = []
    \/ dbReady (ui w) = false ->
  handleSaveProject svc w = (w, Returned tt).
Proof.
  intros H. apply saveGuard_true_iff in H.
  unfold handleSaveProject. run_prog. now rewrite H.
Qed.


(** C8. Delete is durable-first. With the store not ready nothing happens
    at all. Otherwise the store deletion runs first; the entry leaves the
    in-memory list exactly when that deletion returns, and when it throws
    the list is the one before and the error view is shown. *)
Theorem delete_is_durable_first svc (id : Z) w :
  (dbReady (ui w) = false ->
   handleDeleteProject svc id w = (w, Returned tt))
  /\ (dbReady (ui w) = true ->
      let w' := exec (handleDeleteProject svc id) w in
      db w' = fst (deleteProjectFromDB svc id (db w))
      /\ match snd (deleteProjectFromDB svc id (db w)) with
         | Returned _ =>
             projects (ui w')
             = filter (fun p => negb (Z.eqb (Types.id p) id)) (projects (ui w))
             /\ onlyProjectsChanged (ui w) (ui w')
         | Thrown _ =>
             projects (ui w') = projects (ui w)
             /\ appState (ui w') = error
             /\ errorMessage (ui w')
                = lit "Could not delete the project. Please try again."
         end).
Proof.
  unfold onlyProjectsChanged. run_prog.
  split; intros E; rewrite E; [reflexivity|]. cbn [negb].
  case_store; rewrite ?E; repeat split; reflexivity.
Qed.


(** *** Save and import *)


(** A save that passes its guard, reads the audio and is accepted by the
    store. *)
Lemma save_success svc w (audioData : JsString) (d : DB) :
  saveGuard (ui w) = false ->
  blobUrlToBase64 svc (audioUrl (ui w)) = Returned audioData ->
  saveProjectToDB svc (savedRecord svc (ui w) audioData) (db w)
    = (d, Returned tt) ->
  let w' := exec (handleSaveProject svc) w in
  projects (ui w') = projects (ui w) ++ [savedRecord svc (ui w) audioData]
  /\ onlyProjectsChanged (ui w) (ui w')
  /\ db w' = d /\ downloads w' = downloads w
  /\ transitions w' = transitions w.
Proof.
  intros G B S. unfold onlyProjectsChanged, savedRecord in *. run_prog.
  rewrite G, B. cbv beta iota. rewrite S. repeat split; reflexivity.
Qed.

(** A save never removes or alters an entry: the list is the one before,
    or the one before with the new record at its end. *)
Lemma save_projects_cases svc w :
  let w' := exec (handleSaveProject svc) w in
  projects (ui w') = projects (ui w)
  \/ exists audioData,
       projects (ui w')
       = projects (ui w) ++ [savedRecord svc (ui w) audioData].
Proof.
  unfold savedRecord. run_prog.
  match goal with |- context [saveGuard ?h] => destruct (saveGuard h) end;
    [now left|].
  case_await; [|now left]. case_store; [|now left].
  right. eexists. reflexivity.
Qed.


Lemma importGuard_false_iff (file : Partial.t) :
  importGuard file = false
  <-> exists t s a,
        Partial.topic file = Some t /\ t <> []
        /\ Partial.scenes file = Some s
        /\ Partial.audioData file = Some a /\ a <> [].
Proof.
  unfold importGuard.
  destruct file as [i [[|c t]|] [s|] [[|c' a]|] ti ha]; cbn; split;
    try discriminate;
    try (intros (t0 & s0 & a0 & Ht & Hne & Hs & Ha & Hne');
         congruence).
  intros _. exists (c :: t), s, (c' :: a). repeat split; discriminate.
Qed.





(** The records the application itself produces have a topic, and the
    imported ones an audio text too: they are among those the export and
    import round trip is proved for. *)
Lemma accepted_records_have_topic svc (h : Hooks) (audioData : JsString)
    (file : Partial.t) :
  (saveGuard h = false -> Types.topic (savedRecord svc h audioData) <> [])
  /\ (importGuard file = false ->
      Types.topic (importedRecord svc file) <> []
      /\ Types.audioData (importedRecord svc file) <> []).
Proof.
  split.
  - intros G. apply saveGuard_false_iff in G. cbn. tauto.
  - intros G. apply importGuard_false_iff in G.
    destruct G as (t & sc & a & Ht & Hne & Hs & Ha & Hne').
    cbn. rewrite Ht, Ha. now split.
Qed.

(** *** Export, then import *)




(** *** Identifiers *)



End Handlers.

(** ** The generation workflow and the presentation shell *)

Ltac split_outcomes H :=
  repeat match type of H with
         | match ?o with Returned _ => _ | Thrown _ => _ end = _ =>
             destruct o eqn:?; cbv beta iota in H |- *
         end.

Section Shell.

Variable DB : Type.
Variable AudioBuffer : Type.
Implicit Types (svc : Services DB AudioBuffer) (w : World DB).



(** Every stage returning, the run ends in the preview. *)
Lemma generation_success_run svc (topic : JsString) w :
  firstFailure svc topic = None ->
  appState (ui (exec (handleGenerateVideo svc topic) w)) = preview.
Proof.
  intros F. unfold firstFailure in F. run_prog.
  split_outcomes F; try discriminate F. reflexivity.
Qed.

(** *** One handler run *)







(** *** The view invariant *)





(** A project loads into a preview of its own scenes and of the handle the
    decoder returns. *)
Lemma load_success svc w (p : SavedProject) (url : JsString) :
  base64ToBlobUrl svc (Types.audioData p) = Returned url ->
  let w' := exec (handleLoadProject svc p) w in
  appState (ui w') = preview /\ scenes (ui w') = Types.scenes p
  /\ audioUrl (ui w') = url /\ currentTopic (ui w') = Types.topic p
  /\ title (ui w') = Types.title p /\ hashtags (ui w') = Types.hashtags p
  /\ projects (ui w') = projects (ui w) /\ db w' = db w.
Proof.
  intros L. run_prog. rewrite L. rewrite !or_else_empty.
  repeat split; reflexivity.
Qed.


End Shell.

(** ** Further properties of the handlers *)

Ltac cases :=
  repeat first
    [ case_await
    | case_store
    | match goal with
      | |- context [if ?b then _ else _] => destruct b eqn:?; cbv beta iota
      | |- context [match ?x with Some _ => _ | None => _ end] =>
          destruct x; cbv beta iota
      end ].

Section Further.

Variable DB : Type.
Variable AudioBuffer : Type.
Implicit Types (svc : Services DB AudioBuffer) (w : World DB).

(** X1. Restart shows the idle view with the scenes, the audio reference,
    the topic, the title, the hashtags and the error message cleared; the
    saved projects, the store readiness, the store and the downloads stay,
    and a second restart changes nothing more. *)
Theorem restart_clears_the_view w :
  let w' := exec (@handleRestart DB) w in
  appState (ui w') = idle
  /\ scenes (ui w') = [] /\ audioUrl (ui w') = []
  /\ currentTopic (ui w') = [] /\ title (ui w') = []
  /\ hashtags (ui w') = [] /\ errorMessage (ui w') = []
  /\ projects (ui w') = projects (ui w)
  /\ dbReady (ui w') = dbReady (ui w)
  /\ db w' = db w /\ downloads w' = downloads w
  /\ exec (@handleRestart DB) w' = w'.
Proof.
  destruct w as [[a lm em sc au ct ti ha pr dr] d dl tr].
  run_prog. repeat split; reflexivity.
Qed.

(** X3. An export never touches the store or the saved projects. When the
    serialization returns, the browser is handed exactly one more file,
    with the derived name and the serialized text, and no hook changes;
    when it throws, no file is handed over and the error view shows the
    export message. *)
Theorem export_outcomes svc w (p : SavedProject) :
  let w' := exec (handleExportProject svc p) w in
  db w' = db w /\ projects (ui w') = projects (ui w)
  /\ match JSON_stringify svc p with
     | Returned text =>
         ui w' = ui w /\ transitions w' = transitions w
         /\ downloads w' = downloads w ++ [(exportFileName p, text)]
     | Thrown _ =>
         downloads w' = downloads w /\ appState (ui w') = error
         /\ errorMessage (ui w')
            = lit "Could not export the project. An unexpected error occurred."
     end.
Proof.
  destruct w as [[a lm em sc au ct ti ha pr dr] d dl tr].
  run_prog. cases; repeat split; reflexivity.
Qed.

(** X4. Loading a project never touches the store, the saved projects or
    the store readiness. When the audio text decodes, the preview shows the
    project's scenes, topic, title and hashtags with the decoded handle;
    when decoding throws, the error view shows the load message and the
    scenes, audio reference, topic, title and hashtags are the ones
    before. *)
Theorem load_outcomes svc w (p : SavedProject) :
  let w' := exec (handleLoadProject svc p) w in
  db w' = db w /\ projects (ui w') = projects (ui w)
  /\ dbReady (ui w') = dbReady (ui w) /\ downloads w' = downloads w
  /\ match base64ToBlobUrl svc (Types.audioData p) with
     | Returned url =>
         appState (ui w') = preview
         /\ scenes (ui w') = Types.scenes p /\ audioUrl (ui w') = url
         /\ currentTopic (ui w') = Types.topic p
         /\ title (ui w') = Types.title p
         /\ hashtags (ui w') = Types.hashtags p
     | Thrown _ =>
         appState (ui w') = error
         /\ errorMessage (ui w')
            = lit "Could not load project. The data might be corrupted."
         /\ scenes (ui w') = scenes (ui w)
         /\ audioUrl (ui w') = audioUrl (ui w)
         /\ currentTopic (ui w') = currentTopic (ui w)
         /\ title (ui w') = title (ui w)
         /\ hashtags (ui w') = hashtags (ui w)
     end.
Proof.
  destruct w as [[a lm em sc au ct ti ha pr dr] d dl tr].
  run_prog. cases; rewrite ?or_else_empty; repeat split; reflexivity.
Qed.

(** X7. What each handler leaves alone. No handler changes the store
    readiness. Only save, delete and import touch the store or the saved
    projects; only export hands a file to the browser; only generation,
    load and restart replace the scenes, the audio reference, the topic,
    the title or the hashtags. *)
Theorem handlers_frame svc (ev : Event) w :
  let w' := exec (handle svc ev) w in
  dbReady (ui w') = dbReady (ui w)
  /\ (writesStore ev = false ->
      db w' = db w /\ projects (ui w') = projects (ui w))
  /\ ((forall p, ev <> ExportProject p) -> downloads w' = downloads w)
  /\ (changesView ev = false ->
      scenes (ui w') = scenes (ui w) /\ audioUrl (ui w') = audioUrl (ui w)
      /\ currentTopic (ui w') = currentTopic (ui w)
      /\ title (ui w') = title (ui w) /\ hashtags (ui w') = hashtags (ui w)).
Proof.
  destruct w as [[a lm em sc au ct ti ha pr dr] d dl tr].
  destruct ev as [topic|project|id|project|[| |text]| |];
    run_prog; cases;
    (split; [reflexivity|]);
    (split; [intros E; try discriminate E; split; reflexivity|]);
    (split; [intros E; try reflexivity; exfalso; eapply E; reflexivity|]);
    intros E; try discriminate E; repeat split; reflexivity.
Qed.

(** X12. A save that passes its guard and then fails. If reading the audio
    throws, the store is not called; if the store's put throws, the store
    is whatever the put left. Either way the saved projects, the scenes,
    the audio reference and the topic are the ones before, and the error
    view shows the fixed save message, not the thrown one. *)
Theorem save_failure_outcomes svc w :
  saveGuard (ui w) = false ->
  let w' := exec (handleSaveProject svc) w in
  match blobUrlToBase64 svc (audioUrl (ui w)) with
  | Thrown _ =>
      db w' = db w /\ projects (ui w') = projects (ui w)
      /\ appState (ui w') = error
      /\ errorMessage (ui w')
         = lit "Could not save the project. Please try again."
      /\ scenes (ui w') = scenes (ui w) /\ audioUrl (ui w') = audioUrl (ui w)
      /\ currentTopic (ui w') = currentTopic (ui w)
  | Returned audioData =>
      db w' = fst (saveProjectToDB svc (savedRecord svc (ui w) audioData) (db w))
      /\ match snd (saveProjectToDB svc (savedRecord svc (ui w) audioData)
                      (db w)) with
         | Returned _ =>
             projects (ui w')
             = projects (ui w) ++ [savedRecord svc (ui w) audioData]
         | Thrown _ =>
             projects (ui w') = projects (ui w)
             /\ appState (ui w') = error
             /\ errorMessage (ui w')
                = lit "Could not save the project. Please try again."
             /\ scenes (ui w') = scenes (ui w)
             /\ audioUrl (ui w') = audioUrl (ui w)
             /\ currentTopic (ui w') = currentTopic (ui w)
         end
  end.
Proof.
  destruct w as [[a lm em sc au ct ti ha pr dr] d dl tr].
  unfold savedRecord. run_prog. intros G. rewrite G.
  cases; repeat split; reflexivity.
Qed.

(** X16. The mount effect. The store readiness becomes true exactly when
    opening the store returns. When the listing returns too, the saved
    projects are the listed ones and the idle view stays; when either call
    throws, the error view shows the reload message and the saved projects
    stay empty, and a throwing listing leaves the store marked ready. *)
Theorem mount_outcomes svc (db0 : DB) :
  let w' := exec (initialize svc) (mount db0) in
  match snd (initDB svc db0) with
  | Thrown _ =>
      dbReady (ui w') = false /\ projects (ui w') = []
      /\ appState (ui w') = error
      /\ errorMessage (ui w')
         = lit "Could not load saved projects. Please refresh the page."
      /\ db w' = fst (initDB svc db0)
  | Returned _ =>
      dbReady (ui w') = true
      /\ db w' = fst (getProjectsFromDB svc (fst (initDB svc db0)))
      /\ match snd (getProjectsFromDB svc (fst (initDB svc db0))) with
         | Returned savedProjects =>
             projects (ui w') = savedProjects /\ appState (ui w') = idle
             /\ errorMessage (ui w') = [] /\ transitions w' = []
         | Thrown _ =>
             projects (ui w') = [] /\ appState (ui w') = error
             /\ errorMessage (ui w')
                = lit "Could not load saved projects. Please refresh the page."
             /\ transitions w' = [(idle, error)]
         end
  end.
Proof.
  unfold mount, initialHooks. run_prog.
  match goal with
  | |- context [initDB ?s ?d] => destruct (initDB s d) as [? [[]|?]]
  end; cbv beta iota; cases; repeat split; reflexivity.
Qed.

(** *** The export file name *)

Lemma safe_unit (c : N) :
  isFileNameUnit
    ((fun c => if (N.leb 0x41 c) && (N.leb c 0x5A) then (c + 0x20)%N else c)
       (if isAsciiAlnum c then c else 0x5F%N)) = true.
Proof.
  cbv beta. destruct (isAsciiAlnum c) eqn:A.
  - destruct ((N.leb 0x41 c) && (N.leb c 0x5A)) eqn:U;
      unfold isFileNameUnit, isAsciiAlnum in *;
      rewrite ?orb_true_iff, ?andb_true_iff, ?andb_false_iff, ?N.leb_le,
        ?N.leb_gt, ?N.eqb_eq in *; lia.
  - reflexivity.
Qed.

Lemma Forall_prefix {A} (P : A -> Prop) (n : nat) (l : list A) :
  Forall P l -> Forall P (firstn n l).
Proof.
  intros H. rewrite <- (firstn_skipn n l) in H.
  apply Forall_app in H. tauto.
Qed.

(** X2. The name of an export file is the fixed prefix, a stem and the
    fixed suffix; the stem has one code unit for each of the first twenty
    code units of the topic (fewer when the topic is shorter), and each is a
    lower-case ASCII letter, a digit or an underscore. *)
Theorem export_file_name_is_safe (p : SavedProject) :
  exists stem,
    exportFileName p = lit "aishort-project-" ++ stem ++ lit ".json"
    /\ List.length stem = Nat.min 20 (List.length (Types.topic p))
    /\ Forall (fun c => isFileNameUnit c = true) stem.
Proof.
  unfold exportFileName, slice0, toLowerCase, replaceNonAlnum.
  eexists. split; [reflexivity|]. split.
  - now rewrite length_firstn, !length_map.
  - apply Forall_prefix. rewrite map_map. apply Forall_forall.
    intros c Hc. apply in_map_iff in Hc. destruct Hc as (x & <- & _).
    apply safe_unit.
Qed.

(** *** Import: the ways it fails, and what it does not look at *)

(** X5. The ways an import fails. With no file chosen nothing happens. A
    read that fails, a read result that is not a string, a text that does
    not parse and a store that refuses the record each show the error view,
    the last three with the thrown message after the import prefix; in all
    of them the saved projects are the ones before, and the store is
    untouched unless it was the store's put that threw. *)
Theorem import_failure_outcomes svc w :
  exec (handleImportProject svc NoFile) w = w
  /\ (let w' := exec (handleImportProject svc ReadFails) w in
      appState (ui w') = error
      /\ errorMessage (ui w') = lit "Failed to read the project file."
      /\ projects (ui w') = projects (ui w) /\ db w' = db w)
  /\ (let w' := exec (handleImportProject svc (ReadResult None)) w in
      appState (ui w') = error
      /\ errorMessage (ui w')
         = lit "Could not import project: File could not be read."
      /\ projects (ui w') = projects (ui w) /\ db w' = db w)
  /\ (forall (text : JsString) (e : JsError),
      JSON_parse svc text = Thrown e ->
      let w' := exec (handleImportProject svc (ReadResult (Some text))) w in
      appState (ui w') = error
      /\ errorMessage (ui w') = lit "Could not import project: " ++ message e
      /\ projects (ui w') = projects (ui w) /\ db w' = db w)
  /\ (forall (text : JsString) (file : Partial.t) (d : DB) (e : JsError),
      JSON_parse svc text = Returned file ->
      importGuard file = false ->
      saveProjectToDB svc (importedRecord svc file) (db w) = (d, Thrown e) ->
      let w' := exec (handleImportProject svc (ReadResult (Some text))) w in
      appState (ui w') = error
      /\ errorMessage (ui w') = lit "Could not import project: " ++ message e
      /\ projects (ui w') = projects (ui w) /\ db w' = d).
Proof.
  destruct w as [[a lm em sc au ct ti ha pr dr] d0 dl tr].
  split; [reflexivity|]. split; [run_prog; repeat split; reflexivity|].
  split; [run_prog; repeat split; reflexivity|]. split.
  - intros text e P. run_prog. rewrite P. repeat split; reflexivity.
  - intros text file d e P G S. run_prog. rewrite P. cbv beta iota.
    rewrite G. cbv beta iota. rewrite S. repeat split; reflexivity.
Qed.

(** X6. An import looks neither at the store readiness nor at the id in the
    file: run with the readiness flipped it leaves the same world but for
    that flag, and the record it builds from a file is the one it builds
    from the same file with any other id. *)
Theorem import_ignores_readiness_and_file_id svc w (file : FileInput)
    (b : bool) (i : option Z) (parsed : Partial.t) :
  exec (handleImportProject svc file) (worldWithDbReady b w)
  = worldWithDbReady b (exec (handleImportProject svc file) w)
  /\ importGuard (withFileId i parsed) = importGuard parsed
  /\ importedRecord svc (withFileId i parsed) = importedRecord svc parsed.
Proof.
  split; [|split; reflexivity].
  destruct w as [[a lm em sc au ct ti ha pr dr] d0 dl tr].
  destruct file as [| |text]; unfold worldWithDbReady, withDbReady;
    run_prog; cases; reflexivity.
Qed.

(** *** Delete *)

Lemma filter_all {A} (f : A -> bool) (l : list A) :
  Forall (fun a => f a = true) l -> filter f l = l.
Proof.
  induction 1 as [|a l Ha _ IH]; cbn; [reflexivity|]. now rewrite Ha, IH.
Qed.

Lemma delete_success svc (id : Z) w (d : DB) :
  dbReady (ui w) = true ->
  deleteProjectFromDB svc id (db w) = (d, Returned tt) ->
  let w' := exec (handleDeleteProject svc id) w in
  projects (ui w')
  = filter (fun p => negb (Z.eqb (Types.id p) id)) (projects (ui w))
  /\ onlyProjectsChanged (ui w) (ui w') /\ db w' = d.
Proof.
  destruct w as [[a lm em sc au ct ti ha pr dr] d0 dl tr].
  unfold onlyProjectsChanged. run_prog. intros -> S. cbn [negb].
  rewrite S. repeat split; reflexivity.
Qed.


(** *** Save, then delete or load *)

(** X13. A save followed by the delete of the id it drew, both accepted by
    the store, leaves the saved projects as before the save with every
    entry of that id removed; the list is back to what it was exactly when
    no earlier entry had drawn the same id. *)
Theorem save_then_delete svc (svcD : Services DB AudioBuffer) w
    (audioData : JsString) (d1 d2 : DB) :
  saveGuard (ui w) = false ->
  blobUrlToBase64 svc (audioUrl (ui w)) = Returned audioData ->
  saveProjectToDB svc (savedRecord svc (ui w) audioData) (db w)
    = (d1, Returned tt) ->
  let w1 := exec (handleSaveProject svc) w in
  deleteProjectFromDB svcD (freshId svc) (db w1) = (d2, Returned tt) ->
  let w2 := exec (handleDeleteProject svcD (freshId svc)) w1 in
  projects (ui w2)
  = filter (fun p => negb (Z.eqb (Types.id p) (freshId svc)))
      (projects (ui w))
  /\ (projects (ui w2) = projects (ui w)
      <-> Forall (fun p => Types.id p <> freshId svc) (projects (ui w))).
Proof.
  intros G B S w1 D w2.
  destruct (save_success _ _ svc w audioData d1 G B S) as (E1 & F1 & _).
  fold w1 in E1, F1.
  assert (R : dbReady (ui w1) = true).
  { destruct F1 as (_ & _ & _ & _ & _ & _ & _ & _ & ->).
    apply saveGuard_false_iff in G. tauto. }
  destruct (delete_success svcD (freshId svc) w1 d2 R D) as (E2 & _).
  fold w2 in E2.
  assert (E : projects (ui w2)
              = filter (fun p => negb (Z.eqb (Types.id p) (freshId svc)))
                  (projects (ui w))).
  { rewrite E2, E1, filter_app. cbn. rewrite Z.eqb_refl. cbn.
    apply app_nil_r. }
  split; [exact E|]. rewrite E. split.
  - intros H. apply Forall_forall. intros p Hp.
    rewrite <- H in Hp. apply filter_In in Hp.
    destruct Hp as [_ Hp]. now rewrite negb_true_iff, Z.eqb_neq in Hp.
  - intros H. apply filter_all. eapply Forall_impl; [|exact H].
    cbv beta. intros p Hp. now rewrite negb_true_iff, Z.eqb_neq.
Qed.

(** X14. Loading the record a save produced brings back the view that was
    saved: the scenes, the topic, the title and the hashtags are those of
    the state the save ran in, and the audio reference is the handle the
    decoder returns for the saved audio text. *)
Theorem save_then_load svc (svcL : Services DB AudioBuffer) w
    (w0 : World DB) (audioData url : JsString) :
  let p := savedRecord svc (ui w) audioData in
  base64ToBlobUrl svcL audioData = Returned url ->
  let w' := exec (handleLoadProject svcL p) w0 in
  appState (ui w') = preview
  /\ scenes (ui w') = scenes (ui w)
  /\ currentTopic (ui w') = currentTopic (ui w)
  /\ title (ui w') = title (ui w)
  /\ hashtags (ui w') = hashtags (ui w)
  /\ audioUrl (ui w') = url.
Proof.
  intros p L w'.
  destruct (load_success _ _ svcL w0 p url L)
    as (H1 & H2 & H3 & H4 & H5 & H6 & _).
  fold w' in H1, H2, H3, H4, H5, H6. repeat split; assumption.
Qed.

(** *** Generation: how it ends *)

Lemma generation_failure_any svc (topic : JsString) w
    (stage : Stage) (e : JsError) :
  firstFailure svc topic = Some (stage, e) ->
  let w' := exec (handleGenerateVideo svc topic) w in
  appState (ui w') = error
  /\ errorMessage (ui w')
     = or_else (message e) (lit "An unknown error occurred.")
  /\ audioUrl (ui w') = audioUrl (ui w)
  /\ (beforeScenes stage = true -> scenes (ui w') = scenes (ui w))
  /\ currentTopic (ui w') = topic
  /\ projects (ui w') = projects (ui w) /\ db w' = db w.
Proof.
  intros F. unfold firstFailure in F. run_prog.
  split_outcomes F; inversion F; subst; clear F;
    repeat split; try reflexivity; discriminate.
Qed.




(** *** Generation: the scenes and their images *)

Lemma Promise_all_returned {A} (ps : list (Outcome A)) (l : list A) :
  Promise_all ps = Returned l <-> ps = map Returned l.
Proof.
  revert l; induction ps as [|[a|e] ps IH]; intros l; cbn.
  - split; [intros E; injection E as <-; reflexivity|].
    destruct l; [reflexivity | discriminate].
  - destruct (Promise_all ps) as [l'|e'].
    + split.
      * intros E. injection E as <-. cbn. f_equal. now apply IH.
      * destruct l as [|b l]; [discriminate|]. cbn. intros E.
        injection E as -> E. apply IH in E. now injection E as ->.
    + split; [discriminate|].
      destruct l as [|b l]; [discriminate|]. cbn. intros E.
      injection E as -> E. apply IH in E. discriminate E.
  - split; [discriminate|]. destruct l; discriminate.
Qed.

Lemma Promise_all_thrown {A} (ps : list (Outcome A)) (e : JsError) :
  In (Thrown e) ps ->
  exists e', Promise_all ps = Thrown e' /\ In (Thrown e') ps.
Proof.
  induction ps as [|[a|e0] ps IH]; cbn.
  - intros [].
  - intros [H|H]; [discriminate H|].
    destruct (IH H) as (e' & E & I). exists e'. rewrite E. auto.
  - intros _. exists e0. auto.
Qed.

Lemma images_returned svc (sceneData : list SceneData)
    (images : list JsString) :
  Forall2 (fun sd image =>
             generateImageForScene svc (sd_sceneDescription sd)
             = Returned image) sceneData images ->
  Promise_all
    (map (fun scene => generateImageForScene svc (sd_sceneDescription scene))
         sceneData) = Returned images.
Proof.
  intros H. apply Promise_all_returned.
  induction H as [|sd image sds images E _ IH]; cbn; [reflexivity|].
  now rewrite E, IH.
Qed.

Lemma merge_by_position (sceneData : list SceneData) :
  forall (earlier images : list JsString),
    List.length sceneData = List.length images ->
    map_index (withImage (earlier ++ images)) (List.length earlier) sceneData
    = map (fun si => sceneOf (fst si) (snd si)) (combine sceneData images).
Proof.
  induction sceneData as [|sd sds IH]; intros earlier [|image images] L;
    try discriminate L; [reflexivity|].
  cbn [map_index combine map fst snd]. f_equal.
  - unfold withImage, sceneOf. f_equal.
    rewrite app_nth2, Nat.sub_diag by apply Nat.le_refl. reflexivity.
  - specialize (IH (earlier ++ [image]) images).
    rewrite <- app_assoc, length_app in IH. cbn in IH.
    rewrite Nat.add_1_r in IH. apply IH. now injection L.
Qed.

(** X9. A generation run in which every stage returns ends in the preview
    with the generated title and hashtags and the handle of the encoded
    audio, and with one scene for each entry of the scene breakdown, in
    order, each carrying its entry's description, query and duration and
    the image generated for that entry's description. *)
Theorem generation_success_outcome svc (topic : JsString) w
    (script newTitle newHashtags audioData url : JsString)
    (sceneData : list SceneData) (images : list JsString)
    (decodedBytes : list N) (audioBuffer : AudioBuffer) :
  generateScriptFromTopic svc topic = Returned script ->
  generateTitleAndHashtags svc topic script
    = Returned (newTitle, newHashtags) ->
  analyzeScriptForScenes svc script = Returned sceneData ->
  Forall2 (fun sd image =>
             generateImageForScene svc (sd_sceneDescription sd)
             = Returned image) sceneData images ->
  generateVoiceover svc (cleanedScriptForVoiceover script)
    = Returned audioData ->
  newAudioContext svc 24000 = Returned tt ->
  decode svc audioData = Returned decodedBytes ->
  decodeAudioData svc decodedBytes 24000 1 = Returned audioBuffer ->
  audioBufferToWaveBlobUrl svc audioBuffer = Returned url ->
  let w' := exec (handleGenerateVideo svc topic) w in
  appState (ui w') = preview
  /\ scenes (ui w')
     = map (fun si => sceneOf (fst si) (snd si)) (combine sceneData images)
  /\ List.length (scenes (ui w')) = List.length sceneData
  /\ title (ui w') = newTitle /\ hashtags (ui w') = newHashtags
  /\ audioUrl (ui w') = url /\ currentTopic (ui w') = topic.
Proof.
  intros S T A I V C D B U.
  pose proof (images_returned svc sceneData images I) as P.
  pose proof (Forall2_length I) as L.
  pose proof (merge_by_position sceneData [] images L) as M.
  cbn [app List.length] in M.
  destruct w as [[a lm em sc au ct ti ha pr dr] d dl tr].
  run_prog. rewrite S. cbv beta iota. rewrite T. cbv beta iota.
  rewrite A. cbv beta iota. rewrite P. cbv beta iota.
  rewrite V. cbv beta iota. rewrite C. cbv beta iota.
  rewrite D. cbv beta iota. rewrite B. cbv beta iota.
  rewrite U. cbv beta iota.
  repeat split; try reflexivity; rewrite M; [reflexivity|].
  now rewrite length_map, length_combine, <- L, Nat.min_id.
Qed.

(** X10. One image that fails fails the batch: when the script, the title
    and the scene breakdown are there and the image of some entry throws,
    the run fails at the image stage with the error of an entry whose image
    threw; the error view is shown and the scenes are the ones before. *)
Theorem one_image_failure_fails_the_batch svc (topic : JsString) w
    (script : JsString) (th : JsString * JsString)
    (sceneData : list SceneData) (sd : SceneData) (e : JsError) :
  generateScriptFromTopic svc topic = Returned script ->
  generateTitleAndHashtags svc topic script = Returned th ->
  analyzeScriptForScenes svc script = Returned sceneData ->
  In sd sceneData ->
  generateImageForScene svc (sd_sceneDescription sd) = Thrown e ->
  let w' := exec (handleGenerateVideo svc topic) w in
  exists e' sd',
    firstFailure svc topic = Some (ImageStage, e')
    /\ In sd' sceneData
    /\ generateImageForScene svc (sd_sceneDescription sd') = Thrown e'
    /\ appState (ui w') = error
    /\ errorMessage (ui w')
       = or_else (message e') (lit "An unknown error occurred.")
    /\ scenes (ui w') = scenes (ui w)
    /\ audioUrl (ui w') = audioUrl (ui w).
Proof.
  intros S T A I G w'.
  destruct (Promise_all_thrown
              (map (fun scene =>
                      generateImageForScene svc (sd_sceneDescription scene))
                   sceneData) e) as (e' & P & I').
  { rewrite <- G. apply in_map_iff. now exists sd. }
  apply in_map_iff in I'. destruct I' as (sd' & G' & I').
  assert (F : firstFailure svc topic = Some (ImageStage, e')).
  { unfold firstFailure. now rewrite S, T, A, P. }
  destruct (generation_failure_any svc topic w ImageStage e' F)
    as (H1 & H2 & H3 & H4 & _).
  exists e', sd'. repeat split; try assumption. now apply H4.
Qed.

(** *** What holds whenever a handler has finished *)





(** *** The saved projects *)

(** One handler run changes the saved projects by appending one record
    that has a topic, or by removing the entries of one id, or not at
    all. *)
Lemma projects_step svc (ev : Event) w :
  let ps := projects (ui w) in
  let ps' := projects (ui (exec (handle svc ev) w)) in
  ps' = ps
  \/ (exists p, ps' = ps ++ [p] /\ Types.topic p <> [])
  \/ (exists id, ps' = filter (fun p => negb (Z.eqb (Types.id p) id)) ps).
Proof.
  destruct w as [[a lm em sc au ct ti ha pr dr] d dl tr].
  destruct ev as [topic|project|id|project|[| |text]| |];
    run_prog; cases;
    first
      [ left; reflexivity
      | right; right; eexists; reflexivity
      | right; left; eexists; split; [reflexivity|];
        match goal with
        | H : saveGuard _ = false |- _ =>
            apply saveGuard_false_iff in H; cbn in H; cbn; tauto
        | H : importGuard _ = false |- _ =>
            apply importGuard_false_iff in H;
            destruct H as (? & ? & ? & Ht & Hne & _);
            cbn; rewrite Ht; exact Hne
        end ].
Qed.

(** X18. If the projects the store lists at mount all have a non-empty
    topic, so has every saved project after any sequence of handler runs:
    what save and import append has one, and delete only removes. *)
Theorem saved_projects_have_topics svc (db0 : DB)
    (evs : list (Services DB AudioBuffer * Event)) :
  (forall d ps,
     getProjectsFromDB svc (fst (initDB svc db0)) = (d, Returned ps) ->
     Forall (fun p => Types.topic p <> []) ps) ->
  Forall (fun p => Types.topic p <> [])
    (projects (ui (runEvents evs (exec (initialize svc) (mount db0))))).
Proof.
  intros Hok.
  assert (M : Forall (fun p => Types.topic p <> [])
                (projects (ui (exec (initialize svc) (mount db0))))).
  { revert Hok. unfold mount, initialHooks. run_prog.
    match goal with
    | |- context [initDB ?s ?d] => destruct (initDB s d) as [? [[]|?]]
    end; cbv beta iota; intros Hok; [|constructor].
    match goal with
    | |- context [getProjectsFromDB ?s ?d] =>
        destruct (getProjectsFromDB s d) as [? [?|?]] eqn:G
    end; cbv beta iota; [|constructor].
    exact (Hok _ _ eq_refl). }
  revert M. generalize (exec (initialize svc) (mount db0)).
  induction evs as [|[svc1 ev] evs IH]; intros w M; cbn; [exact M|].
  apply IH.
  destruct (projects_step svc1 ev w) as [E|[(p & E & T)|(id & E)]];
    rewrite E.
  - exact M.
  - apply Forall_app. split; [exact M | now constructor].
  - apply Forall_forall. intros p Hp. apply filter_In in Hp.
    rewrite Forall_forall in M. now apply M.
Qed.

End Further.

(** ** Further properties of the voiceover text *)

Section VoiceoverFurther.

Lemma sceneMarker_bare :
  VoiceoverSpec.bareAtStart sceneMarker
  /\ VoiceoverSpec.bareAtStart (rev sceneMarker).
Proof. split; reflexivity. Qed.

(** X20. Which lines the voiceover drops: exactly those that consist of
    white space, possibly none, followed by the scene marker and anything
    after it. Indentation does not protect a marker line; any other text
    before the marker does. *)
Theorem dropped_lines_are_indented_markers (line : JsString) :
  startsWith (trim line) sceneMarker = true
  <-> exists indent rest,
        VoiceoverSpec.allWhite indent
        /\ line = indent ++ sceneMarker ++ rest.
Proof.
  rewrite startsWith_iff. split.
  - intros [r E]. unfold trim in E.
    destruct (trimStart_split line) as (a & El & Ha & _).
    destruct (trimEnd_split (trimStart line)) as (b & Eb & _).
    exists a, (r ++ b). split; [exact Ha|].
    rewrite El at 1. f_equal. rewrite Eb at 1.
    now rewrite E, <- app_assoc.
  - intros (indent & rest & Hw & ->). unfold trim.
    rewrite trimStart_white by exact Hw.
    rewrite trimStart_bare.
    + rewrite trimEnd_app_bare;
        [eexists; reflexivity | discriminate | reflexivity].
    + reflexivity.
Qed.

Lemma join_space_lines (ls : list JsString) :
  Forall (fun l => ~ In LF l) ls ->
  join SPACE ls = spaceForLF (join [LF] ls)
  /\ ~ In LF (join SPACE ls).
Proof.
  assert (K : forall l : JsString, ~ In LF l -> spaceForLF l = l).
  { induction l as [|c l IH]; cbn; [reflexivity|]. intros H.
    destruct (N.eqb_spec c LF) as [->|_]; [exfalso; apply H; now left|].
    f_equal. apply IH. intros I. apply H. now right. }
  induction 1 as [|l ls Hl Hls [IH1 IH2]]; [split; [reflexivity|intros []]|].
  rewrite !join_cons. destruct ls as [|l2 ls].
  - rewrite !app_nil_r. split; [now rewrite K | exact Hl].
  - unfold spaceForLF in *. rewrite map_app. fold (spaceForLF l).
    rewrite K by exact Hl. rewrite IH1. split; [reflexivity|].
    rewrite <- IH1. intros I. apply in_app_or in I. destruct I as [I|I].
    + now apply Hl.
    + cbn in I. destruct I as [I|I]; [discriminate I | now apply IH2].
Qed.

Lemma filter_none {A} (f : A -> bool) (l : list A) :
  (forall a, In a l -> f a = false) -> filter f l = [].
Proof.
  induction l as [|a l IH]; intros H; cbn; [reflexivity|].
  rewrite (H a) by now left. apply IH. intros b Hb. apply H. now right.
Qed.

(** X19. The voiceover text is a single line: it holds no line feed. For a
    script without marker lines it is the script with every line feed
    turned into a space; for a script of marker lines only it is empty. *)
Theorem voiceover_is_one_line (script : JsString) :
  ~ In LF (cleanedScriptForVoiceover script)
  /\ ((forall line, In line (split LF script) ->
         startsWith (trim line) sceneMarker = false) ->
      cleanedScriptForVoiceover script = spaceForLF script)
  /\ ((forall line, In line (split LF script) ->
         startsWith (trim line) sceneMarker = true) ->
      cleanedScriptForVoiceover script = []).
Proof.
  unfold cleanedScriptForVoiceover.
  destruct (split_Lines script) as (_ & Hall & J).
  split; [|split].
  - apply join_space_lines. apply Forall_forall. intros l Hl.
    apply filter_In in Hl. rewrite Forall_forall in Hall.
    apply Hall. tauto.
  - intros H. rewrite filter_all.
    + rewrite (proj1 (join_space_lines _ Hall)). now rewrite J.
    + apply Forall_forall. intros l Hl. now rewrite (H l Hl).
  - intros H. rewrite filter_none; [reflexivity|].
    intros l Hl. now rewrite (H l Hl).
Qed.

End VoiceoverFurther.


(** ** Sample runs *)







(** Every taken edge is taken: the tour goes along each of them. *)
Lemma taken_edges_all_occur (e : AppState * AppState) :
  takenEdge e = true -> In e (transitions Sample.tour).
Proof.
  destruct e as [[] []]; intros H; try discriminate H;
    vm_compute; tauto.
Qed.

(** The voiceover of the sample script: the two marker lines are gone. *)
Example sample_voiceover :
  cleanedScriptForVoiceover Sample.script
  = lit "Hello world Dinner is ready".
Proof. reflexivity. Qed.

(** *** C1 *)



(** *** C2 *)



(** *** C3 *)



(** *** C4 *)



(** *** C5 *)



(** *** C7 *)


(** *** C8 *)

Lemma delete_durable_first_witness :
  dbReady (ui Sample.robotImported) = true
  /\ projects (ui (exec (handleDeleteProject Sample.storeDown 1700000000500)
                     Sample.robotImported))
     = projects (ui Sample.robotImported)
  /\ projects (ui (exec (handleDeleteProject (Sample.online 0 0) 1700000000500)
                     Sample.robotImported))
     = [].
Proof.
  split; [reflexivity|]. split.
  - exact (proj1 (proj2 (proj2 (delete_is_durable_first _ _ Sample.storeDown
                                  1700000000500 Sample.robotImported)
                           eq_refl))).
  - exact (proj1 (proj2 (proj2 (delete_is_durable_first _ _ (Sample.online 0 0)
                                  1700000000500 Sample.robotImported)
                           eq_refl))).
Defined.

(** *** C9 *)

Lemma save_noop_witness :
  scenes (ui Sample.mounted) = []
  /\ handleSaveProject Sample.storeDown Sample.mounted
     = (Sample.mounted, Returned tt).
Proof.
  split; [reflexivity|].
  apply save_without_preconditions_is_noop. left. reflexivity.
Defined.

(** *** C10 *)


(** *** Further sample runs *)

Lemma import_failure_witness :
  JSON_parse (Sample.online Sample.clock (1 # 2)) (lit "not json")
  = Thrown {| message := lit "Unexpected token" |}
  /\ errorMessage
       (ui (exec (handleImportProject (Sample.online Sample.clock (1 # 2))
                    (ReadResult (Some (lit "not json"))))
              Sample.mounted))
     = lit "Could not import project: Unexpected token".
Proof.
  split; [reflexivity|].
  destruct (import_failure_outcomes _ _ (Sample.online Sample.clock (1 # 2))
              Sample.mounted) as (_ & _ & _ & P & _).
  exact (proj1 (proj2 (P (lit "not json")
                         {| message := lit "Unexpected token" |} eq_refl))).
Defined.

Lemma handlers_frame_witness :
  writesStore (ExportProject Sample.robotProject) = false
  /\ projects (ui (exec (handle (Sample.online Sample.clock (1 # 2))
                           (ExportProject Sample.robotProject))
                     Sample.robotImported))
     = projects (ui Sample.robotImported).
Proof.
  split; [reflexivity|].
  destruct (handlers_frame _ _ (Sample.online Sample.clock (1 # 2))
              (ExportProject Sample.robotProject) Sample.robotImported)
    as (_ & S & _).
  exact (proj2 (S eq_refl)).
Defined.


Lemma generation_success_witness :
  appState (ui Sample.previewed) = preview
  /\ List.length (scenes (ui Sample.previewed)) = 2%nat
  /\ map Types.imageUrl (scenes (ui Sample.previewed)) = Sample.sampleImages.
Proof.
  assert (I : Forall2
                (fun sd image =>
                   generateImageForScene (Sample.online Sample.clock (1 # 2))
                     (sd_sceneDescription sd) = Returned image)
                Sample.sceneData Sample.sampleImages).
  { repeat constructor. }
  destruct (generation_success_outcome _ _
              (Sample.online Sample.clock (1 # 2)) Sample.robot
              Sample.mounted Sample.script (lit "Robot Chef")
              (lit "#robot #cooking") (lit "AAAAAA==") (lit "blob:null/wave")
              Sample.sceneData Sample.sampleImages [0; 0; 0; 0]%N [0; 0]%Z
              eq_refl eq_refl eq_refl I eq_refl eq_refl eq_refl eq_refl
              eq_refl) as (A & S & L & _).
  split; [exact A|]. split; [exact L|].
  change (ui Sample.previewed)
    with (ui (exec (handleGenerateVideo (Sample.online Sample.clock (1 # 2))
                      Sample.robot) Sample.mounted)).
  rewrite S. reflexivity.
Defined.

Lemma image_failure_witness :
  In (nth 1%nat Sample.sceneData (nth 0%nat Sample.sceneData
                                {| sd_sceneDescription := [];
                                   sd_searchQuery := [];
                                   sd_duration := 0 |}))
     Sample.sceneData
  /\ exists e,
       firstFailure Sample.imageDown Sample.robot = Some (ImageStage, e)
       /\ scenes (ui (exec (handleGenerateVideo Sample.imageDown Sample.robot)
                        Sample.mounted)) = [].
Proof.
  assert (I : In (nth 1%nat Sample.sceneData
                    (nth 0%nat Sample.sceneData
                       {| sd_sceneDescription := []; sd_searchQuery := [];
                          sd_duration := 0 |})) Sample.sceneData).
  { right. left. reflexivity. }
  split; [exact I|].
  destruct (one_image_failure_fails_the_batch _ _ Sample.imageDown
              Sample.robot Sample.mounted Sample.script
              (lit "Robot Chef", lit "#robot #cooking") Sample.sceneData _
              {| message := lit "image quota exhausted" |}
              eq_refl eq_refl eq_refl I eq_refl)
    as (e' & sd' & F & _ & _ & _ & _ & S & _).
  exists e'. split; [exact F | exact S].
Defined.


Lemma save_failure_witness :
  saveGuard (ui Sample.previewed) = false
  /\ projects (ui Sample.saveFailed) = projects (ui Sample.previewed)
  /\ errorMessage (ui Sample.saveFailed)
     = lit "Could not save the project. Please try again.".
Proof.
  split; [reflexivity|].
  pose proof (save_failure_outcomes _ _ Sample.storeDown Sample.previewed
                eq_refl) as H.
  destruct H as (_ & P & _ & M & _).
  split; [exact P | exact M].
Defined.

Lemma save_then_delete_witness :
  saveGuard (ui Sample.previewed) = false
  /\ projects
       (ui (exec (handleDeleteProject (Sample.online Sample.clock (1 # 2))
                    (freshId (Sample.online Sample.clock (1 # 2))))
              Sample.savedOnce))
     = projects (ui Sample.previewed).
Proof.
  split; [reflexivity|].
  destruct (save_then_delete _ _ (Sample.online Sample.clock (1 # 2))
              (Sample.online Sample.clock (1 # 2)) Sample.previewed
              (lit "UklGRg==") _ _ eq_refl eq_refl eq_refl eq_refl)
    as (_ & B).
  apply B. constructor.
Defined.

Lemma save_then_load_witness :
  base64ToBlobUrl (Sample.online Sample.clock (1 # 2)) (lit "UklGRg==")
  = Returned (lit "blob:null/loaded")
  /\ scenes (ui (exec (handleLoadProject (Sample.online Sample.clock (1 # 2))
                         Sample.savedRecordOnce)
                   Sample.mounted))
     = scenes (ui Sample.previewed).
Proof.
  split; [reflexivity|].
  exact (proj1 (proj2 (save_then_load _ _
                         (Sample.online Sample.clock (1 # 2))
                         (Sample.online Sample.clock (1 # 2))
                         Sample.previewed Sample.mounted (lit "UklGRg==")
                         (lit "blob:null/loaded") eq_refl))).
Defined.


Lemma saved_topics_witness :
  Forall (fun p => Types.topic p <> [])
    (projects
       (ui (runEvents
              [(Sample.online Sample.clock (1 # 2),
                ImportProject
                  (ReadResult (Some (Sample.projectJson Sample.robotTopic))));
               (Sample.online Sample.clock (1 # 2), Generate Sample.robot);
               (Sample.online Sample.clock (1 # 2), SaveProject)]
              (exec (initialize (Sample.online Sample.clock (1 # 2)))
                 (mount [])))))
  /\ List.length
       (projects
          (ui (runEvents
                 [(Sample.online Sample.clock (1 # 2),
                   ImportProject
                     (ReadResult
                        (Some (Sample.projectJson Sample.robotTopic))));
                  (Sample.online Sample.clock (1 # 2), Generate Sample.robot);
                  (Sample.online Sample.clock (1 # 2), SaveProject)]
                 (exec (initialize (Sample.online Sample.clock (1 # 2)))
                    (mount []))))) = 2%nat.
Proof.
  split; [|reflexivity].
  apply saved_projects_have_topics.
  intros d ps E. injection E as _ <-. constructor.
Defined.

Lemma plain_script_witness :
  (forall line, In line (split LF Sample.plainScript) ->
     startsWith (trim line) sceneMarker = false)
  /\ cleanedScriptForVoiceover Sample.plainScript = lit "Hello world".
Proof.
  assert (H : forall line, In line (split LF Sample.plainScript) ->
                startsWith (trim line) sceneMarker = false).
  { intros line [<-|[<-|[]]]; reflexivity. }
  split; [exact H|].
  exact (proj1 (proj2 (voiceover_is_one_line Sample.plainScript)) H).
Defined.
